(** * journalbeat: the buffering engine, the cursor writer and the normaliser

    A shallow embedding of [beater/journalbeat.go].  Go maps become stdpp
    [gmap]s, [common.MapStr] (a [map[string]interface{}]) becomes a map to a
    small sum of dynamic values, and the methods on [*Journalbeat] that
    mutate the receiver become computations in a state-and-panic monad over
    the part of the receiver they touch. *)

From Stdlib Require Import ZArith QArith Lia Ascii String.
From stdpp Require Import base gmap list strings.

Local Open Scope string_scope.
Local Open Scope list_scope.
Local Open Scope Z_scope.

(** ** Dynamic values and [common.MapStr] *)

(** The values an [interface{}] slot of an event holds.  The code only ever
    asserts [string] and [int64]; every other dynamic type is [VOther]. *)
Inductive Value : Type :=
  | VString (s : string)
  | VInt64 (n : Z)
  | VOther (tag : nat).

Abbreviation MapStr := (gmap string Value).

(** [v.(string)] and [v.(int64)] on the result of a map index: a missing key
    yields the nil interface, on which both assertions fail. *)
Definition asString (v : option Value) : option string :=
  match v with
  | Some (VString s) => Some s
  | _ => None
  end.

Definition asInt64 (v : option Value) : option Z :=
  match v with
  | Some (VInt64 n) => Some n
  | _ => None
  end.

(** ** Machine integers and durations *)

Definition minInt64 : Z := - 2 ^ 63.
Definition maxInt64 : Z := 2 ^ 63 - 1.

(** Conversion to [int64] keeping the low 64 bits. *)
Definition int64 (z : Z) : Z := (z + 2 ^ 63) mod 2 ^ 64 - 2 ^ 63.

(** The constants of the source. *)
Definition microseconds : Z := 1000000.
Definition microsToNanos : Z := 1000.

Definition containerTagField : string := "CONTAINER_TAG".
Definition containerIdField : string := "CONTAINER_ID".
Definition tagField : string := "SYSLOG_IDENTIFIER".
Definition processField : string := "_PID".
Definition hostNameField : string := "_HOST_NAME".
Definition messageField : string := "MESSAGE".
Definition timestampField : string := "_SOURCE_REALTIME_TIMESTAMP".

(** The one-byte strings the source writes as escapes. *)
Definition tab : ascii := "009"%char.
Definition newline : string := String "010"%char EmptyString.

(** A [time.Time] is its count of nanoseconds since the Unix epoch, a
    [time.Duration] a count of nanoseconds held in an [int64]. *)
Definition Second : Z := 1000000000.

(** [t.Sub(u)]: the difference, saturated to the range of a Duration. *)
Definition Sub (t u : Z) : Z :=
  if t - u <? minInt64 then minInt64
  else if maxInt64 <? t - u then maxInt64
  else t - u.

(** [d.Seconds()]: whole seconds plus the remaining nanoseconds over 1e9.
    The source computes in float64; the embedding keeps the exact rational. *)
Definition Seconds (d : Z) : Q :=
  (inject_Z (Z.quot d Second) + inject_Z (Z.rem d Second) / inject_Z Second)%Q.

(** [t.Unix()]: whole seconds since the epoch, rounded down. *)
Definition Time_Unix (t : Z) : Z := t / Second.

(** ** The buffering engine *)

Record LogBuffer : Type := {
  time : Z;
  logEvent : MapStr;
  logType : string
}.

(** What of [config.Config] the embedded code reads. *)
Record Config : Type := {
  FlushLogInterval : Z;
  MetricsEnabled : bool;
  CleanFieldNames : bool;
  ConvertToNumbers : bool;
  MoveMetadataLocation : string;
  DefaultType : string
}.

(** The fields of [Journalbeat] the engine touches, with the effects on the
    collaborators it calls recorded as traces: [published] is the list of
    events handed to [client.PublishEvent(_, publisher.Guaranteed)], oldest
    first, and [cursorChan] the list of values sent on the channel of that
    name.  A metric that was never created is the nil interface ([None]).
    [nowCalls] counts the calls of [time.Now] made so far. *)
Record Journalbeat : Type := {
  journalTypeOutstandingLogBuffer : gmap string LogBuffer;
  published : list MapStr;
  cursorChan : list string;
  logMessagesPublished : option Z;
  logMessageDelay : option Z;
  nowCalls : nat
}.

(** A call either returns with a value and the new receiver, or panics,
    leaving the receiver as it was at the failing statement. *)
Inductive Outcome (A : Type) : Type :=
  | Ok (a : A) (jb : Journalbeat)
  | Panic (jb : Journalbeat).
Arguments Ok {A} a jb.
Arguments Panic {A} jb.

Definition M (A : Type) : Type := Journalbeat -> Outcome A.

Definition ret {A} (a : A) : M A := fun jb => Ok a jb.

Definition bind {A B} (m : M A) (k : A -> M B) : M B :=
  fun jb =>
    match m jb with
    | Ok a jb' => k a jb'
    | Panic jb' => Panic jb'
    end.

Definition panic {A} : M A := fun jb => Panic jb.

Declare Scope go_scope.
Delimit Scope go_scope with go.
Notation "x <- m ;; k" := (bind m (fun x => k))
  (at level 100, m at next level, right associativity) : go_scope.
Notation "m ;;; k" := (bind m (fun _ => k))
  (at level 100, right associativity) : go_scope.
Local Open Scope go_scope.

(** A type assertion without the comma-ok form panics on failure. *)
Definition must {A} (o : option A) : M A :=
  match o with
  | Some a => ret a
  | None => panic
  end.

Definition get_buffer (k : string) : M (option LogBuffer) :=
  fun jb => Ok (journalTypeOutstandingLogBuffer jb !! k) jb.

Definition set_buffers (f : gmap string LogBuffer -> gmap string LogBuffer) : M unit :=
  fun jb =>
    Ok tt {| journalTypeOutstandingLogBuffer := f (journalTypeOutstandingLogBuffer jb);
             published := published jb;
             cursorChan := cursorChan jb;
             logMessagesPublished := logMessagesPublished jb;
             logMessageDelay := logMessageDelay jb;
             nowCalls := nowCalls jb |}.

Definition PublishEvent (ev : MapStr) : M unit :=
  fun jb =>
    Ok tt {| journalTypeOutstandingLogBuffer := journalTypeOutstandingLogBuffer jb;
             published := published jb ++ [ev];
             cursorChan := cursorChan jb;
             logMessagesPublished := logMessagesPublished jb;
             logMessageDelay := logMessageDelay jb;
             nowCalls := nowCalls jb |}.

Definition send_cursorChan (c : string) : M unit :=
  fun jb =>
    Ok tt {| journalTypeOutstandingLogBuffer := journalTypeOutstandingLogBuffer jb;
             published := published jb;
             cursorChan := cursorChan jb ++ [c];
             logMessagesPublished := logMessagesPublished jb;
             logMessageDelay := logMessageDelay jb;
             nowCalls := nowCalls jb |}.

(** [jb.logMessagesPublished.Inc(n)]: a method call on the nil interface
    panics. *)
Definition Inc (n : Z) : M unit :=
  fun jb =>
    match logMessagesPublished jb with
    | None => Panic jb
    | Some c =>
        Ok tt {| journalTypeOutstandingLogBuffer := journalTypeOutstandingLogBuffer jb;
                 published := published jb;
                 cursorChan := cursorChan jb;
                 logMessagesPublished := Some (int64 (c + n));
                 logMessageDelay := logMessageDelay jb;
                 nowCalls := nowCalls jb |}
    end.

(** [jb.logMessageDelay.Update(v)]. *)
Definition Update (v : Z) : M unit :=
  fun jb =>
    match logMessageDelay jb with
    | None => Panic jb
    | Some _ =>
        Ok tt {| journalTypeOutstandingLogBuffer := journalTypeOutstandingLogBuffer jb;
                 published := published jb;
                 cursorChan := cursorChan jb;
                 logMessagesPublished := logMessagesPublished jb;
                 logMessageDelay := Some v;
                 nowCalls := nowCalls jb |}
    end.

(** The continuation test of [flushOrBufferLogs]:
    [newLogMessage != "" && (newLogMessage[0] == ' ' || newLogMessage[0] == '\t')]. *)
Definition isContinuation (newLogMessage : string) : bool :=
  negb (String.eqb newLogMessage "")
  && match String.get 0 newLogMessage with
     | Some c => Ascii.eqb c " "%char || Ascii.eqb c tab
     | None => false
     end.

(** What the [select] of [logProcessor] takes at one turn of its loop: the
    ticker, or an event from [jb.incomingLogMessages].  A tick comes with
    the order in which the [range] of that pass visits the buffered keys,
    which Go leaves open. *)
Inductive Signal : Type :=
  | Tick (order : list string)
  | Incoming (channelEvent : MapStr).

Section Engine.

(** The wall clock: [clock n] is what the [n]-th call of [time.Now]
    returns. *)
Variable clock : nat -> Z.
Variable config : Config.

Definition Now : M Z :=
  fun jb =>
    Ok (clock (nowCalls jb))
       {| journalTypeOutstandingLogBuffer := journalTypeOutstandingLogBuffer jb;
          published := published jb;
          cursorChan := cursorChan jb;
          logMessagesPublished := logMessagesPublished jb;
          logMessageDelay := logMessageDelay jb;
          nowCalls := S (nowCalls jb) |}.

(** [&LogBuffer{time: time.Now(), logType: event["logBufferingType"].(string),
    logEvent: event}], its fields evaluated in the order written. *)
Definition newLogBuffer (event : MapStr) : M LogBuffer :=
  now <- Now ;;
  lt <- must (asString (event !! "logBufferingType")) ;;
  ret {| time := now; logEvent := event; logType := lt |}.

Definition flushOrBufferLogs (event : MapStr) : M unit :=
  newLogMessage <- must (asString (event !! "message")) ;;
  logType_ <- must (asString (event !! "logBufferingType")) ;;
  if isContinuation newLogMessage then
    found <- get_buffer logType_ ;;
    match found with
    | Some oldLog =>
        oldMessage <- must (asString (logEvent oldLog !! "message")) ;;
        set_buffers
          <[logType_ :=
              {| time := time oldLog;
                 logEvent := <["message" :=
                                 VString (oldMessage +:+ newline +:+ newLogMessage)]>
                               (logEvent oldLog);
                 logType := logType oldLog |}]>
    | None =>
        fresh <- newLogBuffer event ;;
        set_buffers <[logType_ := fresh]>
    end ;;;
    now <- Now ;;
    set_buffers
      (alter (fun b => {| time := now; logEvent := logEvent b; logType := logType b |})
             logType_)
  else
    oldLogBuffer <- get_buffer logType_ ;;
    fresh <- newLogBuffer event ;;
    set_buffers <[logType_ := fresh]> ;;;
    match oldLogBuffer with
    | Some old =>
        PublishEvent (logEvent old) ;;;
        if MetricsEnabled config then
          Inc 1 ;;;
          now <- Now ;;
          utc <- must (asInt64 (event !! "utcTimestamp")) ;;
          Update (int64 (Time_Unix now - Z.quot utc microseconds))
        else ret tt
    | None => ret tt
    end.

(** The staleness test of [flushStaleLogMessages]. *)
Definition isStale (now : Z) (logBuffer : LogBuffer) : bool :=
  Qle_bool (Seconds (FlushLogInterval config)) (Seconds (Sub now (time logBuffer))).

(** The body of the [range] loop for one key.  Go's [range] over a map
    yields every key present when the loop starts and not deleted before
    it is reached, each once, in an order the language leaves open: the
    loop is run over a given order [keys]. *)
Definition flushStaleEntry (logType_ : string) : M unit :=
  found <- get_buffer logType_ ;;
  match found with
  | None => ret tt
  | Some logBuffer =>
      now <- Now ;;
      if isStale now logBuffer then
        PublishEvent (logEvent logBuffer) ;;;
        set_buffers (delete logType_) ;;;
        cursor <- must (asString (logEvent logBuffer !! "cursor")) ;;
        send_cursorChan cursor
      else ret tt
  end.

Fixpoint flushStaleLogMessages (keys : list string) : M unit :=
  match keys with
  | [] => ret tt
  | logType_ :: rest => flushStaleEntry logType_ ;;; flushStaleLogMessages rest
  end.

(** [logProcessor] loops forever; the embedding runs it over the signals
    its [select] takes in a finite stretch of that loop. *)
Fixpoint logProcessor (signals : list Signal) : M unit :=
  match signals with
  | [] => ret tt
  | Tick order :: rest => flushStaleLogMessages order ;;; logProcessor rest
  | Incoming channelEvent :: rest => flushOrBufferLogs channelEvent ;;; logProcessor rest
  end.

End Engine.

(** ** The cursor writer *)

(** [saveCursorState]: [writes] is the list of contents handed to
    [ioutil.WriteFile] for the cursor state file, oldest first.  A failed
    write is only logged, so the calls made do not depend on it. *)
Definition saveCursorState (cursor : string) (writes : list string) : list string :=
  if negb (String.eqb cursor "") then writes ++ [cursor] else writes.

(** The [range] loop of [writeCursorLoop] over what the channel delivers
    until it is closed.  Each value comes with whether the ticker channel
    was ready when the [select] after its receipt ran. *)
Fixpoint writeCursorRange (received : list (string * bool)) (cursor : string)
    (writes : list string) : string * list string :=
  match received with
  | [] => (cursor, writes)
  | (c, tick) :: rest =>
      writeCursorRange rest c (if tick then saveCursorState c writes else writes)
  end.

(** [writeCursorLoop]: the loop, then the deferred save of the variable
    [cursor], which starts as the empty string. *)
Definition writeCursorLoop (received : list (string * bool)) : list string :=
  let '(cursor, writes) := writeCursorRange received "" [] in
  saveCursorState cursor writes.

(** ** [strconv.ParseInt] in base 10 at 64 bits *)

Inductive NumError : Type := ErrSyntax | ErrRange.

Definition maxUint64 : Z := 2 ^ 64 - 1.

Definition isDigit (c : ascii) : bool :=
  (48 <=? Z.of_N (N_of_ascii c)) && (Z.of_N (N_of_ascii c) <=? 57).

Definition digitVal (c : ascii) : Z := Z.of_N (N_of_ascii c) - 48.

(** The digit loop of [ParseUint]: a byte that is no digit of the base is a
    syntax error, a value past [maxUint64] a range error. *)
Fixpoint parseUintLoop (s : string) (n : Z) : Z * option NumError :=
  match s with
  | EmptyString => (n, None)
  | String d rest =>
      if negb (isDigit d) then (0, Some ErrSyntax)
      else if maxUint64 / 10 + 1 <=? n then (maxUint64, Some ErrRange)
      else
        let n1 := n * 10 + digitVal d in
        if maxUint64 <? n1 then (maxUint64, Some ErrRange)
        else parseUintLoop rest n1
  end.

Definition ParseUint (s : string) : Z * option NumError :=
  if String.eqb s "" then (0, Some ErrSyntax) else parseUintLoop s 0.

(** [strconv.ParseInt(s, 10, 64)]: the value and the error, [None] for
    [nil]. *)
Definition ParseInt (s : string) : Z * option NumError :=
  match s with
  | EmptyString => (0, Some ErrSyntax)
  | String c0 rest =>
      let neg := Ascii.eqb c0 "-"%char in
      let s' := if Ascii.eqb c0 "+"%char || neg then rest else s in
      let '(un, err) := ParseUint s' in
      match err with
      | Some ErrSyntax => (0, Some ErrSyntax)
      | _ =>
          let cutoff := 2 ^ 63 in
          if negb neg && (cutoff <=? un) then (cutoff - 1, Some ErrRange)
          else if neg && (cutoff <? un) then (- cutoff, Some ErrRange)
          else (if neg then - un else un, None)
      end
  end.

(** ** [time.Unix] and [Time.Format]

    The layout language of Go's [time] package, as far as a layout string
    can reach it: the scanner for the next layout element, the calendar
    arithmetic, and the printing of each element. *)

Module GoTime.

(** The elements a layout can name. *)
Inductive Std : Type :=
  | stdLongMonth | stdMonth | stdNumMonth | stdZeroMonth
  | stdLongWeekDay | stdWeekDay
  | stdDay | stdUnderDay | stdZeroDay | stdUnderYearDay | stdZeroYearDay
  | stdHour | stdHour12 | stdZeroHour12
  | stdMinute | stdZeroMinute | stdSecond | stdZeroSecond
  | stdLongYear | stdYear
  | stdPM | stdpm
  | stdTZ
  | stdISO8601TZ | stdISO8601SecondsTZ | stdISO8601ShortTZ
  | stdISO8601ColonTZ | stdISO8601ColonSecondsTZ
  | stdNumTZ | stdNumSecondsTz | stdNumShortTZ
  | stdNumColonTZ | stdNumColonSecondsTZ
  | stdFracSecond0 (digits : nat) (separator : ascii)
  | stdFracSecond9 (digits : nat) (separator : ascii).

(** [strip p s]: what follows [p] in [s], when [s] starts with [p]. *)
Fixpoint strip (p s : string) : option string :=
  match p, s with
  | EmptyString, _ => Some s
  | String a p', String b s' => if Ascii.eqb a b then strip p' s' else None
  | String _ _, EmptyString => None
  end.

Definition byteIn (lo hi c : ascii) : bool :=
  (N_of_ascii lo <=? N_of_ascii c)%N && (N_of_ascii c <=? N_of_ascii hi)%N.

Definition startsWithLowerCase (s : string) : bool :=
  match s with
  | EmptyString => false
  | String c _ => byteIn "a" "z" c
  end.

Definition startsWithDigit (s : string) : bool :=
  match s with
  | EmptyString => false
  | String c _ => byteIn "0" "9" c
  end.

(** The run of bytes equal to [ch] at the head of [s]: its length and
    what follows. *)
Fixpoint spanOf (ch : ascii) (s : string) : nat * string :=
  match s with
  | EmptyString => (O, s)
  | String c rest =>
      if Ascii.eqb c ch then let '(n, suf) := spanOf ch rest in (S n, suf)
      else (O, s)
  end.

(** The first element of [alts] whose text starts [s]. *)
Fixpoint firstOf (alts : list (string * Std)) (s : string) : option (Std * string) :=
  match alts with
  | [] => None
  | (text, std) :: more =>
      match strip text s with
      | Some suffix => Some (std, suffix)
      | None => firstOf more s
      end
  end.

(** One turn of the [switch] in [nextStdChunk]: the element that starts at
    the head of [layout], if one does.  The first component is literal
    text the element leaves in front of it (only [_2006] has any). *)
Definition stdAt (layout : string) : option (string * Std * string) :=
  match layout with
  | EmptyString => None
  | String c rest =>
      if Ascii.eqb c "J" then
        match strip "January" layout, strip "Jan" layout with
        | Some suffix, _ => Some ("", stdLongMonth, suffix)
        | None, Some suffix =>
            if startsWithLowerCase suffix then None else Some ("", stdMonth, suffix)
        | None, None => None
        end
      else if Ascii.eqb c "M" then
        match strip "Monday" layout, strip "Mon" layout with
        | Some suffix, _ => Some ("", stdLongWeekDay, suffix)
        | None, Some suffix =>
            if startsWithLowerCase suffix then None else Some ("", stdWeekDay, suffix)
        | None, None =>
            match strip "MST" layout with
            | Some suffix => Some ("", stdTZ, suffix)
            | None => None
            end
        end
      else if Ascii.eqb c "0" then
        match firstOf [("01", stdZeroMonth); ("02", stdZeroDay); ("03", stdZeroHour12);
                       ("04", stdZeroMinute); ("05", stdZeroSecond); ("06", stdYear);
                       ("002", stdZeroYearDay)] layout with
        | Some (std, suffix) => Some ("", std, suffix)
        | None => None
        end
      else if Ascii.eqb c "1" then
        match strip "15" layout with
        | Some suffix => Some ("", stdHour, suffix)
        | None => Some ("", stdNumMonth, rest)
        end
      else if Ascii.eqb c "2" then
        match strip "2006" layout with
        | Some suffix => Some ("", stdLongYear, suffix)
        | None => Some ("", stdDay, rest)
        end
      else if Ascii.eqb c "_" then
        match strip "_2006" layout, strip "_2" layout, strip "__2" layout with
        | Some suffix, _, _ => Some ("_", stdLongYear, suffix)
        | None, Some suffix, _ => Some ("", stdUnderDay, suffix)
        | None, None, Some suffix => Some ("", stdUnderYearDay, suffix)
        | None, None, None => None
        end
      else if Ascii.eqb c "3" then Some ("", stdHour12, rest)
      else if Ascii.eqb c "4" then Some ("", stdMinute, rest)
      else if Ascii.eqb c "5" then Some ("", stdSecond, rest)
      else if Ascii.eqb c "P" then
        match strip "PM" layout with
        | Some suffix => Some ("", stdPM, suffix)
        | None => None
        end
      else if Ascii.eqb c "p" then
        match strip "pm" layout with
        | Some suffix => Some ("", stdpm, suffix)
        | None => None
        end
      else if Ascii.eqb c "-" then
        match firstOf [("-070000", stdNumSecondsTz); ("-07:00:00", stdNumColonSecondsTZ);
                       ("-0700", stdNumTZ); ("-07:00", stdNumColonTZ);
                       ("-07", stdNumShortTZ)] layout with
        | Some (std, suffix) => Some ("", std, suffix)
        | None => None
        end
      else if Ascii.eqb c "Z" then
        match firstOf [("Z070000", stdISO8601SecondsTZ); ("Z07:00:00", stdISO8601ColonSecondsTZ);
                       ("Z0700", stdISO8601TZ); ("Z07:00", stdISO8601ColonTZ);
                       ("Z07", stdISO8601ShortTZ)] layout with
        | Some (std, suffix) => Some ("", std, suffix)
        | None => None
        end
      else if Ascii.eqb c "." || Ascii.eqb c "," then
        match rest with
        | String ch _ =>
            if Ascii.eqb ch "0" || Ascii.eqb ch "9" then
              let '(n, suffix) := spanOf ch rest in
              if startsWithDigit suffix then None
              else Some ("", if Ascii.eqb ch "9" then stdFracSecond9 n c
                             else stdFracSecond0 n c,
                         suffix)
            else None
        | EmptyString => None
        end
      else None
  end.

(** [nextStdChunk]: the literal text before the first element of the
    layout, that element ([None] when the layout has none left), and the
    rest of the layout. *)
Fixpoint nextStdChunk (layout : string) : string * option Std * string :=
  match stdAt layout with
  | Some (lit, std, suffix) => (lit, Some std, suffix)
  | None =>
      match layout with
      | EmptyString => ("", None, "")
      | String c rest =>
          let '(prefix, std, suffix) := nextStdChunk rest in
          (String c prefix, std, suffix)
      end
  end.

(** A [Location] is its lookup: the zone abbreviation and the offset in
    seconds east of UTC in force at a Unix time. *)
Definition Location : Type := Z -> string * Z.

Definition UTC : Location := fun _ => ("UTC", 0).

Record Time : Type := {
  unixSec : Z;
  nsec : Z;
  loc : Location
}.

(** [time.Unix(sec, nsec)], in the location [Local]. *)
Definition Unix (Local : Location) (sec nsec : Z) : Time :=
  if (nsec <? 0) || (1000000000 <=? nsec) then
    let n := Z.quot nsec 1000000000 in
    let sec := sec + n in
    let nsec := nsec - n * 1000000000 in
    if nsec <? 0 then {| unixSec := sec - 1; nsec := nsec + 1000000000; loc := Local |}
    else {| unixSec := sec; nsec := nsec; loc := Local |}
  else {| unixSec := sec; nsec := nsec; loc := Local |}.

Definition secondsPerDay : Z := 86400.
Definition daysPer400Years : Z := 365 * 400 + 97.
Definition daysPer100Years : Z := 365 * 100 + 24.
Definition daysPer4Years : Z := 365 * 4 + 1.
Definition absoluteZeroYear : Z := -292277022399.
Definition unixToInternal : Z := (1969 * 365 + 1969 / 4 - 1969 / 100 + 1969 / 400) * secondsPerDay.
Definition internalToAbsolute : Z := 9223371966579724800.

(** [t.locabs()]: zone name, offset, and the seconds since the absolute
    zero year in that zone, as a [uint64]. *)
Definition locabs (t : Time) : string * Z * Z :=
  let '(name, offset) := loc t (unixSec t) in
  (name, offset, (unixSec t + offset + (unixToInternal + internalToAbsolute)) mod 2 ^ 64).

Definition isLeap (year : Z) : bool :=
  (year mod 4 =? 0) && (negb (year mod 100 =? 0) || (year mod 400 =? 0)).

Definition daysBefore : list Z :=
  [0; 31; 59; 90; 120; 151; 181; 212; 243; 273; 304; 334; 365].

(** [absDate(abs, true)]: year, month (January is 1), day of the month and
    day of the year (from 0). *)
Definition absDate (abs : Z) : Z * Z * Z * Z :=
  let d := abs / secondsPerDay in
  let n := d / daysPer400Years in
  let y := 400 * n in
  let d := d - daysPer400Years * n in
  let n := d / daysPer100Years in
  let n := n - Z.shiftr n 2 in
  let y := y + 100 * n in
  let d := d - daysPer100Years * n in
  let n := d / daysPer4Years in
  let y := y + 4 * n in
  let d := d - daysPer4Years * n in
  let n := d / 365 in
  let n := n - Z.shiftr n 2 in
  let y := y + n in
  let d := d - 365 * n in
  let year := y + absoluteZeroYear in
  let yday := d in
  if isLeap year && (yday =? 31 + 29 - 1) then (year, 2, 29, yday)
  else
    let day := if isLeap year && (31 + 29 - 1 <? yday) then yday - 1 else yday in
    let month := day / 31 in
    let end_ := nth (Z.to_nat (month + 1)) daysBefore 0 in
    if end_ <=? day then (year, month + 2, day - end_ + 1, yday)
    else (year, month + 1, day - nth (Z.to_nat month) daysBefore 0 + 1, yday).

(** [absClock(abs)]: hour, minute, second. *)
Definition absClock (abs : Z) : Z * Z * Z :=
  let sec := abs mod secondsPerDay in
  let hour := sec / 3600 in
  let sec := sec - hour * 3600 in
  let min := sec / 60 in
  (hour, min, sec - min * 60).

(** [absWeekday(abs)]: Sunday is 0; the absolute zero day was a Monday. *)
Definition absWeekday (abs : Z) : Z :=
  ((abs + 1 * secondsPerDay) mod (7 * secondsPerDay)) / secondsPerDay.

Definition longMonthNames : list string :=
  ["January"; "February"; "March"; "April"; "May"; "June"; "July"; "August";
   "September"; "October"; "November"; "December"].

Definition longDayNames : list string :=
  ["Sunday"; "Monday"; "Tuesday"; "Wednesday"; "Thursday"; "Friday"; "Saturday"].

Definition Month_String (m : Z) : string := nth (Z.to_nat (m - 1)) longMonthNames "".
Definition Weekday_String (d : Z) : string := nth (Z.to_nat d) longDayNames "".

Definition digitChar (d : Z) : ascii := ascii_of_N (Z.to_N (48 + d)).

(** The digit loop of [appendInt], which fills a 20-byte buffer from its
    end. *)
Fixpoint decimalInto (room : nat) (u : Z) (buf : string) : string :=
  match room with
  | O => buf
  | S room' =>
      if 10 <=? u then decimalInto room' (u / 10) (String (digitChar (u mod 10)) buf)
      else String (digitChar u) buf
  end.

Fixpoint zeros (n : nat) : string :=
  match n with
  | O => ""
  | S n' => String "0" (zeros n')
  end.

(** [appendInt(b, x, width)], as the text it appends. *)
Definition appendInt (x : Z) (width : nat) : string :=
  let digits := decimalInto 20 (Z.abs x) "" in
  (if x <? 0 then "-" else "") +:+ zeros (width - String.length digits) +:+ digits.

Fixpoint takeString (n : nat) (s : string) : string :=
  match n, s with
  | S n', String c rest => String c (takeString n' rest)
  | _, _ => ""
  end.

Fixpoint trimZeros (n : nat) (buf : string) : nat :=
  match n with
  | O => O
  | S n' =>
      match String.get n' buf with
      | Some c => if Ascii.eqb c "0" then trimZeros n' buf else n
      | None => n
      end
  end.

(** [appendNano]: the fractional second to [n] places after [separator],
    trailing zeros removed when [trim]. *)
Definition appendNano (nanosec : Z) (n : nat) (separator : ascii) (trim : bool) : string :=
  let digits := decimalInto 20 nanosec "" in
  let buf := zeros (9 - String.length digits) +:+ digits in
  let n := Nat.min n 9 in
  let n := if trim then trimZeros n buf else n in
  if trim && Nat.eqb n 0 then "" else String separator (takeString n buf).

Definition hasColon (std : Std) : bool :=
  match std with
  | stdISO8601ColonTZ | stdNumColonTZ | stdISO8601ColonSecondsTZ | stdNumColonSecondsTZ => true
  | _ => false
  end.

Definition isISO8601 (std : Std) : bool :=
  match std with
  | stdISO8601TZ | stdISO8601ColonTZ | stdISO8601SecondsTZ | stdISO8601ShortTZ
  | stdISO8601ColonSecondsTZ => true
  | _ => false
  end.

Definition isShortTZ (std : Std) : bool :=
  match std with
  | stdNumShortTZ | stdISO8601ShortTZ => true
  | _ => false
  end.

Definition hasSecondsTZ (std : Std) : bool :=
  match std with
  | stdISO8601SecondsTZ | stdNumSecondsTz | stdNumColonSecondsTZ | stdISO8601ColonSecondsTZ => true
  | _ => false
  end.

Definition appendZone (std : Std) (offset : Z) : string :=
  if (offset =? 0) && isISO8601 std then "Z"
  else
    let zone := Z.quot offset 60 in
    let sign := if zone <? 0 then "-" else "+" in
    let absoffset := if zone <? 0 then - offset else offset in
    let zone := Z.abs zone in
    sign +:+ appendInt (zone / 60) 2
      +:+ (if hasColon std then ":" else "")
      +:+ (if isShortTZ std then "" else appendInt (zone mod 60) 2)
      +:+ (if hasSecondsTZ std
           then (if hasColon std then ":" else "") +:+ appendInt (Z.rem absoffset 60) 2
           else "").

Definition hour12 (hour : Z) : Z :=
  let hr := hour mod 12 in
  if hr =? 0 then 12 else hr.

(** The [switch] of [appendFormat]: the text one layout element prints. *)
Definition appendStd (t : Time) (std : Std) : string :=
  let '(name, offset, abs) := locabs t in
  let '(year, month, day, yday) := absDate abs in
  let yday := yday + 1 in
  let '(hour, min, sec) := absClock abs in
  match std with
  | stdYear => appendInt (Z.abs year mod 100) 2
  | stdLongYear => appendInt year 4
  | stdMonth => takeString 3 (Month_String month)
  | stdLongMonth => Month_String month
  | stdNumMonth => appendInt month 0
  | stdZeroMonth => appendInt month 2
  | stdWeekDay => takeString 3 (Weekday_String (absWeekday abs))
  | stdLongWeekDay => Weekday_String (absWeekday abs)
  | stdDay => appendInt day 0
  | stdUnderDay => (if day <? 10 then " " else "") +:+ appendInt day 0
  | stdZeroDay => appendInt day 2
  | stdUnderYearDay =>
      (if yday <? 100 then (if yday <? 10 then "  " else " ") else "") +:+ appendInt yday 0
  | stdZeroYearDay => appendInt yday 3
  | stdHour => appendInt hour 2
  | stdHour12 => appendInt (hour12 hour) 0
  | stdZeroHour12 => appendInt (hour12 hour) 2
  | stdMinute => appendInt min 0
  | stdZeroMinute => appendInt min 2
  | stdSecond => appendInt sec 0
  | stdZeroSecond => appendInt sec 2
  | stdPM => if 12 <=? hour then "PM" else "AM"
  | stdpm => if 12 <=? hour then "pm" else "am"
  | stdTZ =>
      if negb (String.eqb name "") then name
      else
        let zone := Z.quot offset 60 in
        (if zone <? 0 then "-" else "+")
          +:+ appendInt (Z.abs zone / 60) 2 +:+ appendInt (Z.abs zone mod 60) 2
  | stdFracSecond0 n separator => appendNano (nsec t) n separator false
  | stdFracSecond9 n separator => appendNano (nsec t) n separator true
  | _ => appendZone std offset
  end.

(** The loop of [appendFormat]: one layout element per turn.  Every turn
    but the last shortens the layout, so its length bounds the turns. *)
Fixpoint appendFormat (turns : nat) (t : Time) (b layout : string) : string :=
  match turns with
  | O => b
  | S turns' =>
      if String.eqb layout "" then b
      else
        let '(prefix, std, suffix) := nextStdChunk layout in
        match std with
        | None => b +:+ prefix
        | Some std => appendFormat turns' t (b +:+ prefix +:+ appendStd t std) suffix
        end
  end.

Definition Format (t : Time) (layout : string) : string :=
  appendFormat (S (String.length layout)) t "" layout.

End GoTime.

(** ** Normalisation: the body of the loop of [Run] *)

(** [sdjournal.JournalEntry]; the timestamp is a [uint64]. *)
Record JournalEntry : Type := {
  Fields : gmap string string;
  Cursor : string;
  RealtimeTimestamp : Z
}.

(** Indexing a [map[string]string]: the empty string for a missing key. *)
Definition index (m : gmap string string) (k : string) : string := default "" (m !! k).

Section Normalizer.

(** The helper [MapStrFromJournalEntry] is defined elsewhere in the package;
    the loop only relies on it returning a map it can assign into. *)
Variable MapStrFromJournalEntry : JournalEntry -> bool -> bool -> string -> list string -> MapStr.
(** The process's local time zone. *)
Variable Local : GoTime.Location.
Variable config : Config.

Definition convertMicrosecondsEpochToISO8601 (microsecondsEpoch : Z) : string :=
  let tmSecs := Z.quot microsecondsEpoch microseconds in
  let tmUSecs := Z.rem microsecondsEpoch microseconds in
  let tm := GoTime.Unix Local tmSecs (tmUSecs * microsToNanos) in
  GoTime.Format tm "2006-01-02T15:04:05.760738998Z".

Definition commonFields : list string := [hostNameField; messageField].

(** The event [Run] sends on [jb.incomingLogMessages] for [rawEvent]. *)
Definition Run_event (rawEvent : JournalEntry) : MapStr :=
  let event :=
    match Fields rawEvent !! containerIdField with
    | Some _ =>
        let selectedFields := commonFields ++ [containerTagField; containerIdField] in
        let event :=
          MapStrFromJournalEntry rawEvent (CleanFieldNames config) (ConvertToNumbers config)
            (MoveMetadataLocation config) selectedFields in
        let event := <["type" := VString "container"]> event in
        <["logBufferingType" := VString (index (Fields rawEvent) containerIdField)]> event
    | None =>
        let selectedFields := commonFields ++ [tagField; processField] in
        let event :=
          MapStrFromJournalEntry rawEvent (CleanFieldNames config) (ConvertToNumbers config)
            (MoveMetadataLocation config) selectedFields in
        let event := <["type" := VString (index (Fields rawEvent) tagField)]> event in
        <["logBufferingType" := VString (index (Fields rawEvent) processField)]> event
    end in
  let event := <["input_type" := VString (DefaultType config)]> event in
  let event := <["cursor" := VString (Cursor rawEvent)]> event in
  match Fields rawEvent !! timestampField with
  | Some tmStr =>
      match ParseInt tmStr with
      | (tm, None) =>
          let event := <["@timestamp" := VString (convertMicrosecondsEpochToISO8601 tm)]> event in
          <["utcTimestamp" := VInt64 tm]> event
      | (_, Some _) =>
          let event :=
            <["@timestamp" :=
                VString (convertMicrosecondsEpochToISO8601 (int64 (RealtimeTimestamp rawEvent)))]>
              event in
          <["utcTimestamp" := VInt64 (int64 (RealtimeTimestamp rawEvent))]> event
      end
  | None =>
      let event :=
        <["@timestamp" :=
            VString (convertMicrosecondsEpochToISO8601 (int64 (RealtimeTimestamp rawEvent)))]>
          event in
      <["utcTimestamp" := VInt64 (int64 (RealtimeTimestamp rawEvent))]> event
  end.

End Normalizer.

(** ** Specification-side definitions *)

(** The continuation test in the words of the specification: the first
    character is a space or a tab. *)
Definition startsWithSpaceOrTab (message : string) : Prop :=
  exists c rest, message = String c rest /\ (c = " "%char \/ c = tab).

(** The receiver as a call leaves it, whether it returned or panicked. *)
Definition state_of {A} (o : Outcome A) : Journalbeat :=
  match o with
  | Ok _ jb => jb
  | Panic jb => jb
  end.

(** The metrics calls cannot panic: metrics are off, or both metrics exist
    and the event carries an [int64] under ["utcTimestamp"]. *)
Definition metricsReady (config : Config) (jb : Journalbeat) (event : MapStr) : Prop :=
  MetricsEnabled config = false
  \/ (is_Some (logMessagesPublished jb) /\ is_Some (logMessageDelay jb)
      /\ is_Some (asInt64 (event !! "utcTimestamp"))).

(** An event the engine can take: strings under ["message"],
    ["logBufferingType"] and ["cursor"], and, when metrics are on, an
    [int64] under ["utcTimestamp"]. *)
Definition eventReady (config : Config) (event : MapStr) : Prop :=
  is_Some (asString (event !! "message"))
  /\ is_Some (asString (event !! "logBufferingType"))
  /\ is_Some (asString (event !! "cursor"))
  /\ (MetricsEnabled config = true -> is_Some (asInt64 (event !! "utcTimestamp"))).

(** The engine between two calls: every buffered event is as above, and the
    metrics exist when they are on. *)
Definition engineReady (config : Config) (jb : Journalbeat) : Prop :=
  (forall k b, journalTypeOutstandingLogBuffer jb !! k = Some b -> eventReady config (logEvent b))
  /\ (MetricsEnabled config = true ->
      is_Some (logMessagesPublished jb) /\ is_Some (logMessageDelay jb)).

(** The entries of [buf] a pass over [keys] finds stale, in the order it
    visits them; the visit of the first key reads the clock for the [n]-th
    time. *)
Fixpoint reapedBy (stale : Z -> LogBuffer -> bool) (clock : nat -> Z) (n : nat)
    (keys : list string) (buf : gmap string LogBuffer) : list LogBuffer :=
  match keys with
  | [] => []
  | k :: rest =>
      match buf !! k with
      | Some b =>
          if stale (clock n) b then b :: reapedBy stale clock (S n) rest buf
          else reapedBy stale clock (S n) rest buf
      | None => reapedBy stale clock n rest buf
      end
  end.

(** Read from the specification: an entry is old enough when the time since
    it was last touched is at least the threshold. *)
Definition oldEnough (threshold now : Z) (b : LogBuffer) : bool :=
  threshold <=? now - time b.

(** The writes the cursor writer makes inside its loop: one for each value
    received while the ticker was ready, unless the value is the empty
    string. *)
Fixpoint periodicWrites (received : list (string * bool)) : list string :=
  match received with
  | [] => []
  | (c, tick) :: rest =>
      (if tick && negb (String.eqb c "") then [c] else []) ++ periodicWrites rest
  end.

(** Read from the specification: the microseconds an event's timestamp is
    derived from.  The high-resolution field parsed as an integer when it is
    present and parses, the record's own realtime timestamp otherwise. *)
Definition derivedMicros (rawEvent : JournalEntry) : Z :=
  match Fields rawEvent !! timestampField with
  | Some tmStr =>
      match ParseInt tmStr with
      | (tm, None) => tm
      | (_, Some _) => int64 (RealtimeTimestamp rawEvent)
      end
  | None => int64 (RealtimeTimestamp rawEvent)
  end.

(** Read from the specification: the stream key.  The value of the
    container-identity field when the record has one, the value of the
    process-identifier field otherwise. *)
Definition streamKey (rawEvent : JournalEntry) : string :=
  match Fields rawEvent !! containerIdField with
  | Some containerId => containerId
  | None => index (Fields rawEvent) processField
  end.

(** ** A concrete run, used to evaluate the code *)

Module Scenario.

(** Successive readings of the clock are 40 seconds apart; entries are
    flushed after 30 seconds. *)
Definition clock (n : nat) : Z := 40 * Second * Z.of_nat n.

Definition config : Config :=
  {| FlushLogInterval := 30 * Second;
     MetricsEnabled := false;
     CleanFieldNames := true;
     ConvertToNumbers := false;
     MoveMetadataLocation := "";
     DefaultType := "journal" |}.

(** An event of the process with identifier 42. *)
Definition line (message cursor : string) : MapStr :=
  <["message" := VString message]>
    (<["logBufferingType" := VString "42"]> (<["cursor" := VString cursor]> ∅)).

Definition idle : Journalbeat :=
  {| journalTypeOutstandingLogBuffer := ∅;
     published := [];
     cursorChan := [];
     logMessagesPublished := None;
     logMessageDelay := None;
     nowCalls := 0 |}.

(** The engine holding the line ["A"] for process 42, buffered at the first
    reading of the clock. *)
Definition holdingA : Journalbeat :=
  {| journalTypeOutstandingLogBuffer :=
       {[ "42" := {| time := clock 0; logEvent := line "A" "c1"; logType := "42" |} ]};
     published := [];
     cursorChan := [];
     logMessagesPublished := None;
     logMessageDelay := None;
     nowCalls := 1 |}.

(** From the idle engine: the line ["A"], the line [" B"] of the same
    process, then one pass of the reaper. *)
Definition run_A_B_reap : Outcome unit :=
  logProcessor clock config
    [Incoming (line "A" "c1"); Incoming (line " B" "c2"); Tick ["42"]] idle.

(** The engine holding an event that has no cursor. *)
Definition holdingUnmarked : Journalbeat :=
  {| journalTypeOutstandingLogBuffer :=
       {[ "42" := {| time := clock 0;
                     logEvent := <["message" := VString "A"]> ∅;
                     logType := "42" |} ]};
     published := [];
     cursorChan := [];
     logMessagesPublished := None;
     logMessageDelay := None;
     nowCalls := 1 |}.

(** A helper that selects nothing. *)
Definition noFields : JournalEntry -> bool -> bool -> string -> list string -> MapStr :=
  fun _ _ _ _ _ => ∅.

(** A record as the kernel's messages are: no process identifier and no
    container. *)
Definition kernelRecord : JournalEntry :=
  {| Fields := {[ "MESSAGE" := "usb 1-1: new device" ]};
     Cursor := "s=1;i=2";
     RealtimeTimestamp := 1136214245123456 |}.

(** A record of process 42 whose high-resolution timestamp is not a
    number. *)
Definition malformedRecord : JournalEntry :=
  {| Fields := {[ "_PID" := "42"; "_SOURCE_REALTIME_TIMESTAMP" := "12a" ]};
     Cursor := "s=1;i=3";
     RealtimeTimestamp := 1136214245123456 |}.

End Scenario.

(** ** Opening the journal: [initJournal] *)

(** A Go [error] is kept as its message; [None] is [nil]. *)
Definition error : Type := string.

(** What [initJournal] reads of [config.Config]. *)
Record SeekConfig : Type := {
  Units : list string;
  SeekPosition : string;
  CursorStateFile : string;
  CursorSeekFallback : string
}.

(** What the collaborators of [initJournal] answer: the error of
    [sdjournal.NewJournal], of [AddMatch] for a match expression, of the
    seeks, and the content and error of [ioutil.ReadFile] for a file
    name. *)
Record Answers : Type := {
  NewJournal : option error;
  AddMatch : string -> option error;
  ReadFile : string -> string * option error;
  SeekCursor : string -> option error;
  SeekHead : option error;
  SeekTail : option error
}.

(** The calls [initJournal] makes on the journal it opened, in order. *)
Inductive JournalCall : Type :=
  | AddMatchCall (expression : string)
  | SeekCursorCall (cursor : string)
  | SeekHeadCall
  | SeekTailCall.

(** [sdjournal.SD_JOURNAL_FIELD_SYSTEMD_UNIT]. *)
Definition SD_JOURNAL_FIELD_SYSTEMD_UNIT : string := "_SYSTEMD_UNIT".

Section InitJournal.

(** The seek positions are constants of the package [config], which is not
    part of the source at hand. *)
Variable SeekPositionCursor SeekPositionHead SeekPositionTail SeekPositionDefault : string.
Variable config : SeekConfig.
Variable answers : Answers.

(** The closure [seekToHelper] logs the outcome and hands the error back. *)
Definition seekToHelper (position : string) (err : option error) : option error := err.

(** The loop over [jb.config.Units]: the calls made, and the error the
    function returns from inside the loop, if any. *)
Fixpoint addUnitMatches (units : list string) : list JournalCall * option error :=
  match units with
  | [] => ([], None)
  | unit :: rest =>
      let expression := SD_JOURNAL_FIELD_SYSTEMD_UNIT +:+ "=" +:+ unit in
      match AddMatch answers expression with
      | Some err =>
          ([AddMatchCall expression],
           Some ("Filtering unit " +:+ unit +:+ " failed: " +:+ err))
      | None =>
          let '(calls, failed) := addUnitMatches rest in
          (AddMatchCall expression :: calls, failed)
      end
  end.

(** The [switch] on the position and the check after it; [err] is the
    function's variable [err] as it stands before the [switch]. *)
Definition seekSwitch (position : string) (err : option error)
    : list JournalCall * option error :=
  let '(calls, err) :=
    if String.eqb position SeekPositionHead
    then ([SeekHeadCall], seekToHelper SeekPositionHead (SeekHead answers))
    else if String.eqb position SeekPositionTail
    then ([SeekTailCall], seekToHelper SeekPositionTail (SeekTail answers))
    else ([], err) in
  match err with
  | Some e => (calls, Some ("Seeking to a good position in journal failed: " +:+ e))
  | None => (calls, None)
  end.

(** [initJournal]: the calls made on the journal and the error returned.
    The [err] declared by [cursor, err := ioutil.ReadFile(...)] lives in
    that [if] statement only and hides the function's [err] there: it is
    [err'] below, and the [err] the function returns or carries into the
    [switch] afterwards is still the one the loop left. *)
Definition initJournal : list JournalCall * option error :=
  match NewJournal answers with
  | Some err => ([], Some err)
  | None =>
      let '(matches, failed) := addUnitMatches (Units config) in
      match failed with
      | Some e => (matches, Some e)
      | None =>
          let err : option error := None in
          let position := SeekPosition config in
          if String.eqb position SeekPositionCursor then
            let '(cursor, err') := ReadFile answers (CursorStateFile config) in
            let '(sought, positioned) :=
              match err' with
              | Some _ => ([], false)
              | None =>
                  match seekToHelper SeekPositionCursor (SeekCursor answers cursor) with
                  | None => ([SeekCursorCall cursor], true)
                  | Some _ => ([SeekCursorCall cursor], false)
                  end
              end in
            if positioned then (matches ++ sought, None)
            else if String.eqb (CursorSeekFallback config) SeekPositionDefault
            then (matches ++ sought, err)
            else
              let '(calls, result) := seekSwitch (CursorSeekFallback config) err in
              (matches ++ sought ++ calls, result)
          else
            let '(calls, result) := seekSwitch position err in
            (matches ++ calls, result)
      end
  end.

End InitJournal.

(** The call that filters one unit. *)
Definition unitMatch (unit : string) : JournalCall :=
  AddMatchCall (SD_JOURNAL_FIELD_SYSTEMD_UNIT +:+ "=" +:+ unit).

(** The journal takes the filter of every unit of the list. *)
Definition filtersAccepted (answers : Answers) (units : list string) : Prop :=
  Forall (fun unit => AddMatch answers (SD_JOURNAL_FIELD_SYSTEMD_UNIT +:+ "=" +:+ unit) = None)
    units.

(** The attempt to resume at the saved cursor fails: the state file cannot
    be read, or the journal refuses the cursor read from it. *)
Definition cursorFails (config : SeekConfig) (answers : Answers) : Prop :=
  is_Some (ReadFile answers (CursorStateFile config)).2
  \/ is_Some (SeekCursor answers (ReadFile answers (CursorStateFile config)).1).

(** The cursor seek that attempt makes: none when the file cannot be
    read. *)
Definition cursorAttempt (config : SeekConfig) (answers : Answers) : list JournalCall :=
  match ReadFile answers (CursorStateFile config) with
  | (_, Some _) => []
  | (cursor, None) => [SeekCursorCall cursor]
  end.

(** The message [initJournal] wraps a failed head or tail seek in. *)
Definition seekFailure (err : option error) : option error :=
  match err with
  | Some e => Some ("Seeking to a good position in journal failed: " +:+ e)
  | None => None
  end.

(** Concrete answers for the scenarios: a journal that opens and takes
    every filter, a state file holding a cursor the journal refuses. *)
Module InitScenario.

Definition staleCursor : Answers :=
  {| NewJournal := None;
     AddMatch := fun _ => None;
     ReadFile := fun _ => ("s=old", None);
     SeekCursor := fun _ => Some "invalid cursor";
     SeekHead := None;
     SeekTail := Some "seek failed" |}.

Definition goodCursor : Answers :=
  {| NewJournal := None;
     AddMatch := fun _ => None;
     ReadFile := fun _ => ("s=1;i=2", None);
     SeekCursor := fun _ => None;
     SeekHead := None;
     SeekTail := None |}.

Definition pickyJournal : Answers :=
  {| NewJournal := None;
     AddMatch := fun expression =>
       if String.eqb expression "_SYSTEMD_UNIT=bad.service" then Some "invalid argument"
       else None;
     ReadFile := fun _ => ("", Some "no such file");
     SeekCursor := fun _ => None;
     SeekHead := None;
     SeekTail := None |}.

Definition resume (fallback : string) : SeekConfig :=
  {| Units := ["sshd.service"; "docker.service"];
     SeekPosition := "cursor";
     CursorStateFile := "/var/lib/journalbeat/cursor";
     CursorSeekFallback := fallback |}.

Definition filtered : SeekConfig :=
  {| Units := ["sshd.service"; "bad.service"; "docker.service"];
     SeekPosition := "tail";
     CursorStateFile := "";
     CursorSeekFallback := "none" |}.

End InitScenario.

(** The events among the signals, in order. *)
Definition incoming (signals : list Signal) : list MapStr :=
  omap (fun signal => match signal with
                      | Incoming event => Some event
                      | Tick _ => None
                      end) signals.

(** Every buffered entry is filed under its own key: the entry's type and
    the ["logBufferingType"] of its event are the key it is stored at, and
    its event has a string message. *)
Definition keyed (jb : Journalbeat) : Prop :=
  forall k b,
    journalTypeOutstandingLogBuffer jb !! k = Some b ->
    logType b = k
    /\ asString (logEvent b !! "logBufferingType") = Some k
    /\ is_Some (asString (logEvent b !! "message")).

(** The entries the engine holds or has published so far. *)
Definition handled (jb : Journalbeat) : nat :=
  (length (published jb) + size (journalTypeOutstandingLogBuffer jb))%nat.

(** Scenarios with metrics switched on. *)
Module MetricsScenario.

Definition config : Config :=
  {| FlushLogInterval := 30 * Second;
     MetricsEnabled := true;
     CleanFieldNames := true;
     ConvertToNumbers := false;
     MoveMetadataLocation := "";
     DefaultType := "journal" |}.

(** An event of process 42 stamped 1136214245.123456 seconds after the
    epoch. *)
Definition stamped (message cursor : string) : MapStr :=
  <["utcTimestamp" := VInt64 1136214245123456]> (Scenario.line message cursor).

(** The engine holding ["A"], with the metrics [Run] creates when the
    collector's address resolves. *)
Definition measuring : Journalbeat :=
  {| journalTypeOutstandingLogBuffer :=
       {[ "42" := {| time := 0; logEvent := stamped "A" "c1"; logType := "42" |} ]};
     published := [];
     cursorChan := [];
     logMessagesPublished := Some 0;
     logMessageDelay := Some 0;
     nowCalls := 0 |}.

(** The same engine when [Run] could not resolve the collector's address
    and created no metrics. *)
Definition unmeasured : Journalbeat :=
  {| journalTypeOutstandingLogBuffer :=
       {[ "42" := {| time := 0; logEvent := stamped "A" "c1"; logType := "42" |} ]};
     published := [];
     cursorChan := [];
     logMessagesPublished := None;
     logMessageDelay := None;
     nowCalls := 0 |}.

(** A clock that stands at 1136214250 seconds after the epoch. *)
Definition clock (n : nat) : Z := 1136214250 * Second.

End MetricsScenario.

(** The six keys [Run] assigns after the helper has built the event. *)
Definition keysOfRun : list string :=
  ["type"; "logBufferingType"; "input_type"; "cursor"; "@timestamp"; "utcTimestamp"].

(** The fields [Run] asks the helper to select for a record. *)
Definition selectedFields (rawEvent : JournalEntry) : list string :=
  match Fields rawEvent !! containerIdField with
  | Some _ => [hostNameField; messageField; containerTagField; containerIdField]
  | None => [hostNameField; messageField; tagField; processField]
  end.

(** A helper, for the scenarios, that copies the record's message. *)
Definition messageOnly : JournalEntry -> bool -> bool -> string -> list string -> MapStr :=
  fun rawEvent _ _ _ _ => {[ "message" := VString (index (Fields rawEvent) messageField) ]}.

(** The layout elements of the date and of the time of day: all but the
    zone and the fractional second. *)
Definition civil (std : GoTime.Std) : bool :=
  match std with
  | GoTime.stdLongMonth | GoTime.stdMonth | GoTime.stdNumMonth | GoTime.stdZeroMonth
  | GoTime.stdLongWeekDay | GoTime.stdWeekDay
  | GoTime.stdDay | GoTime.stdUnderDay | GoTime.stdZeroDay
  | GoTime.stdUnderYearDay | GoTime.stdZeroYearDay
  | GoTime.stdHour | GoTime.stdHour12 | GoTime.stdZeroHour12
  | GoTime.stdMinute | GoTime.stdZeroMinute | GoTime.stdSecond | GoTime.stdZeroSecond
  | GoTime.stdLongYear | GoTime.stdYear | GoTime.stdPM | GoTime.stdpm => true
  | _ => false
  end.

(** * Properties *)

(** ** Durations and staleness *)

Lemma Seconds_exact (d : Z) : (Seconds d == d # 1000000000)%Q.
Proof.
  unfold Seconds, Second.
  pose proof (Z.quot_rem' d 1000000000) as E.
  unfold Qeq, Qplus, Qdiv, Qmult, Qinv, inject_Z; cbn -[Z.mul Z.quot Z.rem].
  rewrite !Pos.mul_1_l.
  generalize dependent (Z.quot d 1000000000). generalize (Z.rem d 1000000000).
  intros r q E. lia.
Qed.

Lemma Seconds_le (a b : Z) : (Seconds a <= Seconds b)%Q <-> a <= b.
Proof.
  rewrite !Seconds_exact. unfold Qle; cbn -[Z.mul]. lia.
Qed.

Lemma Sub_ge (threshold now t : Z) :
  minInt64 < threshold <= maxInt64 ->
  threshold <= Sub now t <-> threshold <= now - t.
Proof.
  unfold Sub, minInt64, maxInt64. intros H.
  destruct (Z.ltb_spec (now - t) (- 2 ^ 63)); [lia|].
  destruct (Z.ltb_spec (2 ^ 63 - 1) (now - t)); lia.
Qed.

(** An entry is stale exactly when the time since it was last touched is
    at least the flush interval. *)
Lemma isStale_iff (config : Config) (now : Z) (b : LogBuffer) :
  minInt64 < FlushLogInterval config <= maxInt64 ->
  isStale config now b = true <-> FlushLogInterval config <= now - time b.
Proof.
  intros H. unfold isStale.
  rewrite Qle_bool_iff, Seconds_le. by apply Sub_ge.
Qed.

Lemma isStale_false_iff (config : Config) (now : Z) (b : LogBuffer) :
  minInt64 < FlushLogInterval config <= maxInt64 ->
  isStale config now b = false <-> now - time b < FlushLogInterval config.
Proof.
  intros H. rewrite <- not_true_iff_false, (isStale_iff _ _ _ H). lia.
Qed.

(** ** The continuation test *)

Lemma isContinuation_iff (message : string) :
  isContinuation message = true <-> message <> "" /\ startsWithSpaceOrTab message.
Proof.
  unfold isContinuation, startsWithSpaceOrTab.
  destruct message as [|c rest]; cbn.
  - split; [done | intros [H _]; done].
  - rewrite orb_true_iff. split.
    + intros [H|H]; (split; [done|]); exists c, rest; split; try done.
      * left. by apply Ascii.eqb_eq.
      * right. by apply Ascii.eqb_eq.
    + intros [_ (c' & rest' & E & H)]. injection E as -> ->.
      destruct H as [->| ->]; [left | right]; apply Ascii.eqb_refl.
Qed.

(** ** One call of [flushOrBufferLogs] *)


Section EngineSteps.

Variable clock : nat -> Z.
Variable config : Config.

Ltac run :=
  unfold flushOrBufferLogs, flushStaleEntry, newLogBuffer, bind, must, ret, panic,
    get_buffer, set_buffers, PublishEvent, send_cursorChan, Now, Inc, Update; cbn.

(** A continuation line for a key with a buffered entry: the message is
    appended after a newline and the time refreshed. *)
Lemma flushOrBufferLogs_merge event jb m k old om :
  asString (event !! "message") = Some m ->
  asString (event !! "logBufferingType") = Some k ->
  isContinuation m = true ->
  journalTypeOutstandingLogBuffer jb !! k = Some old ->
  asString (logEvent old !! "message") = Some om ->
  flushOrBufferLogs clock config event jb =
    Ok tt {| journalTypeOutstandingLogBuffer :=
               <[k := {| time := clock (nowCalls jb);
                         logEvent := <["message" := VString (om +:+ newline +:+ m)]>
                                       (logEvent old);
                         logType := logType old |}]>
                 (journalTypeOutstandingLogBuffer jb);
             published := published jb;
             cursorChan := cursorChan jb;
             logMessagesPublished := logMessagesPublished jb;
             logMessageDelay := logMessageDelay jb;
             nowCalls := S (nowCalls jb) |}.
Proof.
  intros Hm Hk Hc Hold Hom. run.
  rewrite Hm, Hk; cbn. rewrite Hc, Hold; cbn. rewrite Hom; cbn.
  by rewrite alter_insert_eq.
Qed.

(** A continuation line for a key with no buffered entry is buffered as
    it is. *)
Lemma flushOrBufferLogs_orphan event jb m k :
  asString (event !! "message") = Some m ->
  asString (event !! "logBufferingType") = Some k ->
  isContinuation m = true ->
  journalTypeOutstandingLogBuffer jb !! k = None ->
  flushOrBufferLogs clock config event jb =
    Ok tt {| journalTypeOutstandingLogBuffer :=
               <[k := {| time := clock (S (nowCalls jb)); logEvent := event; logType := k |}]>
                 (journalTypeOutstandingLogBuffer jb);
             published := published jb;
             cursorChan := cursorChan jb;
             logMessagesPublished := logMessagesPublished jb;
             logMessageDelay := logMessageDelay jb;
             nowCalls := S (S (nowCalls jb)) |}.
Proof.
  intros Hm Hk Hc Hold. run.
  rewrite Hm, Hk; cbn. rewrite Hc, Hold; cbn.
  by rewrite alter_insert_eq.
Qed.

(** Any other line replaces the entry of its key, and the entry it
    replaces is published.  Nothing is sent on the cursor channel. *)
Lemma flushOrBufferLogs_replace event jb m k :
  asString (event !! "message") = Some m ->
  asString (event !! "logBufferingType") = Some k ->
  isContinuation m = false ->
  metricsReady config jb event ->
  exists jb',
    flushOrBufferLogs clock config event jb = Ok tt jb'
    /\ journalTypeOutstandingLogBuffer jb' =
         <[k := {| time := clock (nowCalls jb); logEvent := event; logType := k |}]>
           (journalTypeOutstandingLogBuffer jb)
    /\ published jb' =
         published jb ++ match journalTypeOutstandingLogBuffer jb !! k with
                         | Some old => [logEvent old]
                         | None => []
                         end
    /\ cursorChan jb' = cursorChan jb
    /\ (is_Some (logMessagesPublished jb) -> is_Some (logMessagesPublished jb'))
    /\ (is_Some (logMessageDelay jb) -> is_Some (logMessageDelay jb')).
Proof.
  intros Hm Hk Hc Hmet. run.
  rewrite Hm, Hk; cbn. rewrite Hc; cbn.
  destruct (journalTypeOutstandingLogBuffer jb !! k) as [old|]; cbn.
  - destruct Hmet as [-> | ([c Hc'] & [g Hg] & [u Hu])]; cbn.
    + eexists; repeat split; done.
    + destruct (MetricsEnabled config); cbn.
      * rewrite Hc'; cbn. rewrite Hu; cbn. rewrite Hg; cbn.
        eexists; repeat split; done.
      * eexists; repeat split; done.
  - eexists; split; [done|]; cbn. by rewrite app_nil_r.
Qed.

(** No call of [flushOrBufferLogs] sends on the cursor channel, however it
    ends. *)
Lemma flushOrBufferLogs_cursorChan event jb :
  cursorChan (state_of (flushOrBufferLogs clock config event jb)) = cursorChan jb.
Proof.
  run.
  destruct (asString (event !! "message")) as [m|]; cbn; [|done].
  destruct (asString (event !! "logBufferingType")) as [k|]; cbn; [|done].
  destruct (isContinuation m); cbn.
  - destruct (journalTypeOutstandingLogBuffer jb !! k) as [old|]; cbn; [|done].
    destruct (asString (logEvent old !! "message")); done.
  - destruct (journalTypeOutstandingLogBuffer jb !! k) as [old|]; cbn; [|done].
    destruct (MetricsEnabled config); cbn; [|done].
    destruct (logMessagesPublished jb); cbn; [|done].
    destruct (asInt64 (event !! "utcTimestamp")); cbn; [|done].
    destruct (logMessageDelay jb); done.
Qed.

(** A missing or non-string ["message"] or ["logBufferingType"] makes the
    call panic before it changes anything. *)
Lemma flushOrBufferLogs_panic event jb :
  asString (event !! "message") = None \/ asString (event !! "logBufferingType") = None ->
  flushOrBufferLogs clock config event jb = Panic jb.
Proof.
  run. intros [-> | Hk]; cbn; [done|].
  destruct (asString (event !! "message")); cbn; [|done]. by rewrite Hk.
Qed.

End EngineSteps.

(** ** One pass of [flushStaleLogMessages] *)


Lemma reapedBy_ext stale1 stale2 clock n keys buf :
  (forall now b, stale1 now b = stale2 now b) ->
  reapedBy stale1 clock n keys buf = reapedBy stale2 clock n keys buf.
Proof.
  intros E. revert n. induction keys as [|k rest IH]; intros n; cbn; [done|].
  destruct (buf !! k); [|done]. rewrite E, !IH. done.
Qed.

Lemma reapedBy_delete stale clock n keys buf k :
  k ∉ keys ->
  reapedBy stale clock n keys (delete k buf) = reapedBy stale clock n keys buf.
Proof.
  revert n. induction keys as [|k' rest IH]; intros n Hk; cbn; [done|].
  apply not_elem_of_cons in Hk as [Hne Hk].
  rewrite lookup_delete_ne by done.
  destruct (buf !! k'); rewrite ?IH by done; done.
Qed.

Section StalePass.

Variable clock : nat -> Z.
Variable config : Config.

Lemma flushStaleEntry_run k jb b :
  journalTypeOutstandingLogBuffer jb !! k = Some b ->
  flushStaleEntry clock config k jb =
    if isStale config (clock (nowCalls jb)) b then
      match asString (logEvent b !! "cursor") with
      | Some c =>
          Ok tt {| journalTypeOutstandingLogBuffer :=
                     delete k (journalTypeOutstandingLogBuffer jb);
                   published := published jb ++ [logEvent b];
                   cursorChan := cursorChan jb ++ [c];
                   logMessagesPublished := logMessagesPublished jb;
                   logMessageDelay := logMessageDelay jb;
                   nowCalls := S (nowCalls jb) |}
      | None =>
          Panic {| journalTypeOutstandingLogBuffer :=
                     delete k (journalTypeOutstandingLogBuffer jb);
                   published := published jb ++ [logEvent b];
                   cursorChan := cursorChan jb;
                   logMessagesPublished := logMessagesPublished jb;
                   logMessageDelay := logMessageDelay jb;
                   nowCalls := S (nowCalls jb) |}
      end
    else
      Ok tt {| journalTypeOutstandingLogBuffer := journalTypeOutstandingLogBuffer jb;
               published := published jb;
               cursorChan := cursorChan jb;
               logMessagesPublished := logMessagesPublished jb;
               logMessageDelay := logMessageDelay jb;
               nowCalls := S (nowCalls jb) |}.
Proof.
  intros Hb.
  unfold flushStaleEntry, bind, must, ret, panic, get_buffer, set_buffers,
    PublishEvent, send_cursorChan, Now; cbn.
  rewrite Hb; cbn.
  destruct (isStale config (clock (nowCalls jb)) b); cbn; [|done].
  destruct (asString (logEvent b !! "cursor")); done.
Qed.

(** What a pass does, for any order over keys that are all buffered: it
    panics exactly when it reaches a stale entry whose event has no string
    under ["cursor"]; otherwise it removes the stale entries, publishes
    their events and sends their cursors in the order of the visits, and
    leaves the other entries alone. *)
Lemma flushStaleLogMessages_run keys :
  forall jb,
    NoDup keys ->
    (forall k, k ∈ keys -> is_Some (journalTypeOutstandingLogBuffer jb !! k)) ->
    let buf := journalTypeOutstandingLogBuffer jb in
    let reaped := reapedBy (isStale config) clock (nowCalls jb) keys buf in
    match flushStaleLogMessages clock config keys jb with
    | Ok _ jb' =>
        (forall i k b, keys !! i = Some k -> buf !! k = Some b ->
           isStale config (clock (nowCalls jb + i)%nat) b = true ->
           is_Some (asString (logEvent b !! "cursor")))
        /\ (forall k, k ∉ keys -> journalTypeOutstandingLogBuffer jb' !! k = buf !! k)
        /\ (forall i k b, keys !! i = Some k -> buf !! k = Some b ->
              journalTypeOutstandingLogBuffer jb' !! k =
                if isStale config (clock (nowCalls jb + i)%nat) b then None else Some b)
        /\ published jb' = published jb ++ (logEvent <$> reaped)
        /\ cursorChan jb' =
             cursorChan jb ++ omap (fun b => asString (logEvent b !! "cursor")) reaped
        /\ Forall2 (fun c b => asString (logEvent b !! "cursor") = Some c)
         (omap (fun b => asString (logEvent b !! "cursor")) reaped) reaped
        /\ nowCalls jb' = (nowCalls jb + length keys)%nat
    | Panic _ =>
        exists i k b,
          keys !! i = Some k /\ buf !! k = Some b
          /\ isStale config (clock (nowCalls jb + i)%nat) b = true
          /\ asString (logEvent b !! "cursor") = None
    end.
Proof.
  induction keys as [|k rest IH]; intros jb Hnd Hall; cbn.
  - repeat split; try done; try (by rewrite app_nil_r); try constructor; lia.
  - apply NoDup_cons in Hnd as [Hk Hnd].
    destruct (Hall k) as [b Hb]; [left|].
    unfold bind. rewrite (flushStaleEntry_run _ _ _ Hb), Hb.
    destruct (isStale config (clock (nowCalls jb)) b) eqn:Hst.
    + destruct (asString (logEvent b !! "cursor")) as [c|] eqn:Hc.
      * match goal with |- context [flushStaleLogMessages _ _ rest ?s] => set (jb1 := s) end.
        assert (forall k', k' ∈ rest ->
                  journalTypeOutstandingLogBuffer jb1 !! k' =
                  journalTypeOutstandingLogBuffer jb !! k') as Hsame.
        { intros k' Hk'. cbn. apply lookup_delete_ne. intros ->. done. }
        ospecialize (IH jb1 Hnd _).
        { intros k' Hk'. rewrite Hsame by done. apply Hall. by right. }
        cbn in IH. rewrite reapedBy_delete in IH by done.
        destruct (flushStaleLogMessages clock config rest jb1) as [[] jb'|jb'].
        -- destruct IH as (I1 & I2 & I3 & I4 & I5 & I6 & I7).
           split; [|split; [|split; [|split; [|split; [|split]]]]].
           ++ intros [|i] k' b' Hi Hb'; cbn in Hi.
              ** injection Hi as <-. rewrite Hb in Hb'. injection Hb' as <-.
                 rewrite Nat.add_0_r. intros _. by rewrite Hc.
              ** rewrite Nat.add_succ_r. apply (I1 i k'); [done|].
                 rewrite lookup_delete_ne; [done|].
                 intros ->. apply Hk. eapply list_elem_of_lookup_2. done.
           ++ intros k' Hk'. apply not_elem_of_cons in Hk' as [Hne Hk'].
              rewrite I2 by done. by rewrite lookup_delete_ne.
           ++ intros [|i] k' b' Hi Hb'; cbn in Hi.
              ** injection Hi as <-. rewrite Hb in Hb'. injection Hb' as <-.
                 rewrite Nat.add_0_r, Hst. rewrite I2 by done.
                 apply lookup_delete_eq.
              ** rewrite Nat.add_succ_r. apply (I3 i k'); [done|].
                 rewrite lookup_delete_ne; [done|].
                 intros ->. apply Hk. eapply list_elem_of_lookup_2. done.
           ++ rewrite I4. cbn. by rewrite <- app_assoc.
           ++ rewrite I5. cbn. rewrite Hc. by rewrite <- app_assoc.
           ++ cbn. rewrite Hc. cbn. by constructor.
           ++ rewrite I7. cbn. lia.
        -- destruct IH as (i & k' & b' & Hi & Hb' & Hst' & Hc').
           exists (S i), k', b'. rewrite Nat.add_succ_r. repeat split; try done.
           rewrite lookup_delete_ne in Hb'; [done|].
           intros ->. apply Hk. eapply list_elem_of_lookup_2. done.
      * exists 0%nat, k, b. rewrite Nat.add_0_r. done.
    + match goal with |- context [flushStaleLogMessages _ _ rest ?s] => set (jb1 := s) end.
      ospecialize (IH jb1 Hnd _).
      { intros k' Hk'. cbn. apply Hall. by right. }
      cbn in IH.
      destruct (flushStaleLogMessages clock config rest jb1) as [[] jb'|jb'].
      * destruct IH as (I1 & I2 & I3 & I4 & I5 & I6 & I7).
        split; [|split; [|split; [|split; [|split; [|split]]]]].
        -- intros [|i] k' b' Hi Hb'; cbn in Hi.
           ++ injection Hi as <-. rewrite Hb in Hb'. injection Hb' as <-.
              rewrite Nat.add_0_r. congruence.
           ++ rewrite Nat.add_succ_r. by apply (I1 i k').
        -- intros k' Hk'. apply not_elem_of_cons in Hk' as [Hne Hk'].
           by rewrite I2.
        -- intros [|i] k' b' Hi Hb'; cbn in Hi.
           ++ injection Hi as <-. rewrite Hb in Hb'. injection Hb' as <-.
              rewrite Nat.add_0_r, Hst. by rewrite I2.
           ++ rewrite Nat.add_succ_r. by apply (I3 i k').
        -- done.
        -- done.
        -- done.
        -- rewrite I7. cbn. lia.
      * destruct IH as (i & k' & b' & Hi & Hb' & Hst' & Hc').
        exists (S i), k', b'. rewrite Nat.add_succ_r. done.
Qed.

End StalePass.

(** The entries a pass reaps are those stale at the reading of the clock
    taken when their key is visited. *)
Lemma elem_of_reapedBy stale clock keys buf :
  (forall k, k ∈ keys -> is_Some (buf !! k)) ->
  forall n b,
    b ∈ reapedBy stale clock n keys buf <->
    exists i k, keys !! i = Some k /\ buf !! k = Some b /\ stale (clock (n + i)%nat) b = true.
Proof.
  induction keys as [|k rest IH]; intros Hall n b; cbn.
  - split; [by intros ?%elem_of_nil | by intros (i & k & ? & _)].
  - destruct (Hall k) as [bk Hbk]; [left|]. rewrite Hbk.
    ospecialize (IH _). { intros k' Hk'. apply Hall. by right. }
    assert (b ∈ reapedBy stale clock (S n) rest buf <->
            exists i k', (k :: rest) !! S i = Some k' /\ buf !! k' = Some b
                         /\ stale (clock (n + S i)%nat) b = true) as Htail.
    { rewrite IH. by setoid_rewrite Nat.add_succ_r. }
    assert ((bk = b /\ stale (clock n) bk = true) <->
            exists k', (k :: rest) !! 0%nat = Some k' /\ buf !! k' = Some b
                       /\ stale (clock (n + 0)%nat) b = true) as Hhead.
    { rewrite Nat.add_0_r. cbn. split.
      - intros [<- Hst]. by exists k.
      - intros (k' & [= <-] & Hb & Hst). rewrite Hbk in Hb. injection Hb as ->. done. }
    destruct (stale (clock n) bk) eqn:Hst.
    + rewrite elem_of_cons, Htail. split.
      * intros [-> | (i & k' & H)]; [|by exists (S i), k'].
        exists 0%nat. apply Hhead. done.
      * intros ([|i] & k' & H); [left | right; by exists i, k'].
        symmetry. apply Hhead. by exists k'.
    + rewrite Htail. split.
      * intros (i & k' & H). by exists (S i), k'.
      * intros ([|i] & k' & H); [|by exists i, k'].
        assert (bk = b /\ false = true) as [_ ?]; [|done]. apply Hhead. by exists k'.
Qed.

Lemma asString_Some (v : option Value) (s : string) :
  asString v = Some s <-> v = Some (VString s).
Proof.
  destruct v as [[| |]|]; cbn; split; intros; simplify_eq; done.
Qed.

Lemma isStale_oldEnough config now b :
  minInt64 < FlushLogInterval config <= maxInt64 ->
  isStale config now b = oldEnough (FlushLogInterval config) now b.
Proof.
  intros H. apply eq_true_iff_eq. rewrite isStale_iff by done.
  unfold oldEnough. by rewrite Z.leb_le.
Qed.

(** The pass as a whole, for keys that are exactly the buffered ones and
    events that all carry their cursor. *)
Lemma flushStaleLogMessages_reaps clock config keys jb :
  minInt64 < FlushLogInterval config <= maxInt64 ->
  NoDup keys ->
  (forall k, k ∈ keys <-> is_Some (journalTypeOutstandingLogBuffer jb !! k)) ->
  (forall k b, journalTypeOutstandingLogBuffer jb !! k = Some b ->
     is_Some (asString (logEvent b !! "cursor"))) ->
  let buf := journalTypeOutstandingLogBuffer jb in
  let reaped := reapedBy (oldEnough (FlushLogInterval config)) clock (nowCalls jb) keys buf in
  exists jb' cursors,
    flushStaleLogMessages clock config keys jb = Ok tt jb'
    /\ (forall i k b, keys !! i = Some k -> buf !! k = Some b ->
          let age := clock (nowCalls jb + i)%nat - time b in
          (FlushLogInterval config <= age ->
             journalTypeOutstandingLogBuffer jb' !! k = None /\ b ∈ reaped)
          /\ (age < FlushLogInterval config ->
               journalTypeOutstandingLogBuffer jb' !! k = Some b))
    /\ (forall b, b ∈ reaped ->
          exists i k, keys !! i = Some k /\ buf !! k = Some b
                      /\ FlushLogInterval config <= clock (nowCalls jb + i)%nat - time b)
    /\ published jb' = published jb ++ (logEvent <$> reaped)
    /\ cursorChan jb' = cursorChan jb ++ cursors
    /\ Forall2 (fun c b => logEvent b !! "cursor" = Some (VString c)) cursors reaped.
Proof.
  intros Hrange Hnd Hkeys Hcur buf reaped.
  assert (forall k, k ∈ keys -> is_Some (buf !! k)) as Hall by (intros k; apply Hkeys).
  pose proof (flushStaleLogMessages_run clock config keys jb Hnd Hall) as Hrun.
  cbn zeta in Hrun.
  rewrite (reapedBy_ext (isStale config) (oldEnough (FlushLogInterval config))) in Hrun
    by (intros; by apply isStale_oldEnough).
  fold buf reaped in Hrun.
  destruct (flushStaleLogMessages clock config keys jb) as [[] jb'|jb'].
  - destruct Hrun as (_ & _ & Hbuf & Hpub & Hch & Hlen & _).
    exists jb', (omap (fun b => asString (logEvent b !! "cursor")) reaped).
    split; [done|]. split; [|split; [|split; [done|split; [done|]]]].
    + intros i k b Hi Hb age. specialize (Hbuf i k b Hi Hb). split.
      * intros Hage.
        assert (isStale config (clock (nowCalls jb + i)%nat) b = true) as Hst
            by (by apply isStale_iff).
        rewrite Hst in Hbuf. split; [done|].
        apply elem_of_reapedBy; [done|]. exists i, k. repeat split; try done.
        unfold oldEnough. by apply Z.leb_le.
      * intros Hage.
        assert (isStale config (clock (nowCalls jb + i)%nat) b = false) as Hst
            by (by apply isStale_false_iff).
        by rewrite Hst in Hbuf.
    + intros b Hb. apply elem_of_reapedBy in Hb as (i & k & Hi & Hbk & Hold); [|done].
      exists i, k. repeat split; try done. unfold oldEnough in Hold. by apply Z.leb_le.
    + eapply Forall2_impl; [done|]. intros c b Hc. by apply asString_Some.
  - destruct Hrun as (i & k & b & Hi & Hb & _ & Hnone).
    destruct (Hcur k b Hb) as [c Hc]. congruence.
Qed.

(** ** The event loop *)

Section EventLoop.

Variable clock : nat -> Z.
Variable config : Config.

Lemma logProcessor_cons_Incoming event signals :
  logProcessor clock config (Incoming event :: signals) =
    (flushOrBufferLogs clock config event ;;; logProcessor clock config signals).
Proof. done. Qed.

Lemma logProcessor_app signals1 signals2 jb :
  logProcessor clock config (signals1 ++ signals2) jb =
    (logProcessor clock config signals1 ;;; logProcessor clock config signals2) jb.
Proof.
  revert jb. induction signals1 as [|[order|event] rest IH]; intros jb; cbn; [done| |].
  - unfold bind. destruct (flushStaleLogMessages clock config order jb); [apply IH | done].
  - unfold bind. destruct (flushOrBufferLogs clock config event jb); [apply IH | done].
Qed.

Lemma metricsReady_of event jb :
  engineReady config jb -> eventReady config event -> metricsReady config jb event.
Proof.
  intros [_ Hmetrics] (_ & _ & _ & Hutc). unfold metricsReady.
  destruct (MetricsEnabled config); [right | by left].
  destruct Hmetrics as [? ?]; [done|]. split; [done|]. split; [done|]. by apply Hutc.
Qed.

Lemma eventReady_merged event s :
  eventReady config event -> eventReady config (<["message" := VString s]> event).
Proof.
  intros (_ & Hk & Hc & Hutc). unfold eventReady.
  rewrite lookup_insert_eq, !lookup_insert_ne by done.
  split; [by eexists | done].
Qed.

(** The engine takes every event that is ready, stays ready, and touches
    the entry of the event's key only. *)
Lemma flushOrBufferLogs_ready event jb k :
  engineReady config jb ->
  eventReady config event ->
  asString (event !! "logBufferingType") = Some k ->
  exists jb',
    flushOrBufferLogs clock config event jb = Ok tt jb'
    /\ engineReady config jb'
    /\ (forall k', k' <> k ->
          journalTypeOutstandingLogBuffer jb' !! k' = journalTypeOutstandingLogBuffer jb !! k').
Proof.
  intros Hjb Hev Hk.
  pose proof Hev as ([m Hm] & _ & _ & _). pose proof Hjb as [Hbufs Hmetrics].
  destruct (isContinuation m) eqn:Hcont.
  - destruct (journalTypeOutstandingLogBuffer jb !! k) as [old|] eqn:Hold.
    + destruct (Hbufs k old Hold) as ([om Hom] & _).
      eexists. split; [by eapply flushOrBufferLogs_merge|]. split; [split|]; cbn.
      * intros k' b. destruct (decide (k' = k)) as [->|Hne].
        -- rewrite lookup_insert_eq. intros [= <-]. cbn.
           apply eventReady_merged. by eapply Hbufs.
        -- rewrite lookup_insert_ne by done. apply Hbufs.
      * done.
      * intros k' Hne. by rewrite lookup_insert_ne.
    + eexists. split; [by eapply flushOrBufferLogs_orphan|]. split; [split|]; cbn.
      * intros k' b. destruct (decide (k' = k)) as [->|Hne].
        -- rewrite lookup_insert_eq. by intros [= <-].
        -- rewrite lookup_insert_ne by done. apply Hbufs.
      * done.
      * intros k' Hne. by rewrite lookup_insert_ne.
  - destruct (flushOrBufferLogs_replace clock config event jb m k Hm Hk Hcont
                (metricsReady_of event jb Hjb Hev))
      as (jb' & Hrun & Hbuf & _ & _ & Hcounter & Hgauge).
    exists jb'. split; [done|]. split; [split|].
    + intros k' b. rewrite Hbuf. destruct (decide (k' = k)) as [->|Hne].
      * rewrite lookup_insert_eq. by intros [= <-].
      * rewrite lookup_insert_ne by done. apply Hbufs.
    + intros Hon. destruct (Hmetrics Hon). split; [by apply Hcounter | by apply Hgauge].
    + intros k' Hne. rewrite Hbuf. by rewrite lookup_insert_ne.
Qed.

(** Events of other keys leave the entry of key [k] as it is. *)
Lemma logProcessor_others k events :
  forall jb,
    engineReady config jb ->
    Forall (eventReady config) events ->
    Forall (fun e => asString (e !! "logBufferingType") <> Some k) events ->
    exists jb',
      logProcessor clock config (Incoming <$> events) jb = Ok tt jb'
      /\ engineReady config jb'
      /\ journalTypeOutstandingLogBuffer jb' !! k = journalTypeOutstandingLogBuffer jb !! k.
Proof.
  induction events as [|event rest IH]; intros jb Hjb Hready Hother.
  - by exists jb.
  - apply Forall_cons in Hready as [Hev Hready]. apply Forall_cons in Hother as [Hne Hother].
    pose proof Hev as (_ & [k' Hk'] & _).
    destruct (flushOrBufferLogs_ready event jb k' Hjb Hev Hk') as (jb1 & Hrun & Hjb1 & Hsame).
    destruct (IH jb1 Hjb1 Hready Hother) as (jb' & Hrest & Hjb' & Hsame').
    exists jb'. split; [|split; [done|]].
    + cbn. unfold bind. by rewrite Hrun.
    + rewrite Hsame'. apply Hsame. congruence.
Qed.

End EventLoop.

(** ** The claims about the buffering engine *)

(** C1 (the code departs from it).  Whenever a non-continuation line is
    ingested for a key that has a buffered entry, the old entry is published,
    but nothing is sent on the cursor channel: its marker never reaches the
    cursor writer. *)
Theorem C1_replace_publishes_without_marker clock config event jb m k old :
  asString (event !! "message") = Some m ->
  asString (event !! "logBufferingType") = Some k ->
  isContinuation m = false ->
  journalTypeOutstandingLogBuffer jb !! k = Some old ->
  metricsReady config jb event ->
  exists jb',
    flushOrBufferLogs clock config event jb = Ok tt jb'
    /\ published jb' = published jb ++ [logEvent old]
    /\ cursorChan jb' = cursorChan jb.
Proof.
  intros Hm Hk Hc Hold Hmet.
  destruct (flushOrBufferLogs_replace clock config event jb m k Hm Hk Hc Hmet)
    as (jb' & Hrun & _ & Hpub & Hcur & _).
  exists jb'. rewrite Hold in Hpub. done.
Qed.

(** The scenario: ["C"] arrives while ["A"] is buffered. *)
Lemma C1_witness :
  exists jb',
    flushOrBufferLogs Scenario.clock Scenario.config (Scenario.line "C" "c2") Scenario.holdingA
      = Ok tt jb'
    /\ published jb' = published Scenario.holdingA ++ [Scenario.line "A" "c1"]
    /\ cursorChan jb' = cursorChan Scenario.holdingA.
Proof.
  apply (C1_replace_publishes_without_marker Scenario.clock Scenario.config
           (Scenario.line "C" "c2") Scenario.holdingA "C" "42"
           {| time := Scenario.clock 0; logEvent := Scenario.line "A" "c1"; logType := "42" |}).
  - reflexivity.
  - reflexivity.
  - reflexivity.
  - reflexivity.
  - left. reflexivity.
Defined.



(** C2 (as the code has it).  Take the line ["A"] and later the line
    [" B"] for the same key, with any events of other keys before, between
    and after them and none of that key.  The engine takes them all, and the
    entry it then holds for the key is the first event with the message
    ["A"], a newline, [" B"]: the continuation keeps its leading space.  The
    next pass of the reaper, finding the entry stale, publishes that event,
    sends its cursor and removes the entry. *)
Theorem C2_merged_message_keeps_space clock config jb e1 e2 mid post k c :
  engineReady config jb ->
  eventReady config e1 ->
  eventReady config e2 ->
  Forall (eventReady config) mid ->
  Forall (eventReady config) post ->
  asString (e1 !! "message") = Some "A" ->
  asString (e1 !! "logBufferingType") = Some k ->
  asString (e1 !! "cursor") = Some c ->
  asString (e2 !! "message") = Some " B" ->
  asString (e2 !! "logBufferingType") = Some k ->
  Forall (fun e => asString (e !! "logBufferingType") <> Some k) mid ->
  Forall (fun e => asString (e !! "logBufferingType") <> Some k) post ->
  minInt64 < FlushLogInterval config <= maxInt64 ->
  let merged := <["message" := VString ("A" +:+ newline +:+ " B")]> e1 in
  exists jb2 entry,
    logProcessor clock config
      (Incoming e1 :: (Incoming <$> mid) ++ Incoming e2 :: (Incoming <$> post)) jb = Ok tt jb2
    /\ journalTypeOutstandingLogBuffer jb2 !! k = Some entry
    /\ logEvent entry = merged
    /\ merged !! "message" = Some (VString ("A" +:+ newline +:+ " B"))
    /\ forall order i,
         NoDup order ->
         (forall k', k' ∈ order <-> is_Some (journalTypeOutstandingLogBuffer jb2 !! k')) ->
         order !! i = Some k ->
         FlushLogInterval config <= clock (nowCalls jb2 + i)%nat - time entry ->
         exists jb3 emitted,
           logProcessor clock config [Tick order] jb2 = Ok tt jb3
           /\ published jb3 = published jb2 ++ emitted
           /\ merged ∈ emitted
           /\ c ∈ drop (length (cursorChan jb2)) (cursorChan jb3)
           /\ journalTypeOutstandingLogBuffer jb3 !! k = None.
Proof.
  intros Hjb He1 He2 Hmid Hpost Hm1 Hk1 Hc1 Hm2 Hk2 Hmidk Hpostk Hrange merged.
  destruct (flushOrBufferLogs_ready clock config e1 jb k Hjb He1 Hk1)
    as (jb1 & Hrun1 & Hjb1 & _).
  assert (exists first_, journalTypeOutstandingLogBuffer jb1 !! k = Some first_
                         /\ logEvent first_ = e1) as (first_ & Hfirst & Hev1).
  { destruct (flushOrBufferLogs_replace clock config e1 jb "A" k Hm1 Hk1 eq_refl
                (metricsReady_of config e1 jb Hjb He1)) as (jb1' & Hrun1' & Hbuf1 & _).
    rewrite Hrun1 in Hrun1'. injection Hrun1' as <-.
    eexists. split; [rewrite Hbuf1; apply lookup_insert_eq | done]. }
  destruct (logProcessor_others clock config k mid jb1 Hjb1 Hmid Hmidk)
    as (jbm & Hrunm & Hjbm & Hsamem).
  assert (asString (logEvent first_ !! "message") = Some "A") as Hom by (by rewrite Hev1).
  rewrite <- Hsamem in Hfirst.
  pose proof (flushOrBufferLogs_merge clock config e2 jbm " B" k first_ "A"
                Hm2 Hk2 eq_refl Hfirst Hom) as Hrun2.
  destruct (flushOrBufferLogs_ready clock config e2 jbm k Hjbm He2 Hk2)
    as (jbe & Hrun2' & Hjbe & _).
  assert (exists entry, journalTypeOutstandingLogBuffer jbe !! k = Some entry
                        /\ logEvent entry = merged) as (entry & Hentry & Hmerged).
  { rewrite Hrun2 in Hrun2'. injection Hrun2' as <-. cbn.
    eexists. split; [apply lookup_insert_eq|]. cbn. by rewrite Hev1. }
  destruct (logProcessor_others clock config k post jbe Hjbe Hpost Hpostk)
    as (jb2 & Hrunp & Hjb2 & Hsamep).
  rewrite <- Hsamep in Hentry.
  exists jb2, entry.
  split.
  { rewrite logProcessor_cons_Incoming. unfold bind at 1. rewrite Hrun1.
    rewrite logProcessor_app. unfold bind at 1. rewrite Hrunm.
    rewrite logProcessor_cons_Incoming. unfold bind at 1. by rewrite Hrun2', Hrunp. }
  split; [done|]. split; [done|]. split; [apply lookup_insert_eq|].
  intros order i Hnd Horder Hi Hage.
  destruct (flushStaleLogMessages_reaps clock config order jb2 Hrange Hnd Horder)
    as (jb3 & cursors & Hrun3 & Hbuf3 & _ & Hpub3 & Hch3 & Hcs).
  { intros k' b Hb. destruct Hjb2 as [Hready _]. by destruct (Hready k' b Hb) as (_ & _ & ? & _). }
  destruct (Hbuf3 i k entry Hi Hentry) as [Hstale _].
  destruct (Hstale Hage) as [Hgone Hin].
  exists jb3, (logEvent <$> reapedBy (oldEnough (FlushLogInterval config)) clock (nowCalls jb2)
                 order (journalTypeOutstandingLogBuffer jb2)).
  split.
  { cbn. unfold bind. by rewrite Hrun3. }
  split; [done|]. split.
  { apply list_elem_of_fmap. exists entry. by rewrite Hmerged. }
  split; [|done].
  rewrite Hch3, drop_app_length.
  apply list_elem_of_lookup in Hin as [j Hj].
  destruct (Forall2_lookup_r _ _ _ _ _ Hcs Hj) as (c' & Hc' & Hcc).
  cbn in Hcc. rewrite Hmerged in Hcc. unfold merged in Hcc.
  rewrite lookup_insert_ne in Hcc by done.
  apply asString_Some in Hc1. rewrite Hc1 in Hcc. injection Hcc as ->.
  by eapply list_elem_of_lookup_2.
Qed.

(** The scenario: ["A"] then [" B"] from the idle engine. *)
Lemma C2_witness :
  exists jb2 entry,
    logProcessor Scenario.clock Scenario.config
      [Incoming (Scenario.line "A" "c1"); Incoming (Scenario.line " B" "c2")] Scenario.idle
      = Ok tt jb2
    /\ journalTypeOutstandingLogBuffer jb2 !! "42" = Some entry
    /\ logEvent entry !! "message" = Some (VString ("A" +:+ newline +:+ " B")).
Proof.
  assert (minInt64 < FlushLogInterval Scenario.config <= maxInt64) as Hrange
      by (vm_compute; split; [reflexivity | discriminate]).
  assert (engineReady Scenario.config Scenario.idle) as Hidle.
  { split; [|discriminate]. intros k b. unfold Scenario.idle; cbn. by rewrite lookup_empty. }
  assert (forall m cur, eventReady Scenario.config (Scenario.line m cur)) as Hline.
  { intros m cur. split; [by exists m|]. split; [by exists "42"|].
    split; [by exists cur | discriminate]. }
  destruct (C2_merged_message_keeps_space Scenario.clock Scenario.config Scenario.idle
              (Scenario.line "A" "c1") (Scenario.line " B" "c2") [] [] "42" "c1"
              Hidle (Hline _ _) (Hline _ _) (Forall_nil_2 _) (Forall_nil_2 _)
              eq_refl eq_refl eq_refl eq_refl eq_refl (Forall_nil_2 _) (Forall_nil_2 _) Hrange)
    as (jb2 & entry & H1 & H2 & H3 & H4 & _).
  exists jb2, entry. rewrite H3. done.
Defined.

(** C2 as it was stated fails: in the run of the scenario the one event the
    reaper publishes has the message ["A"], newline, [" B"], which is not
    ["A"], newline, ["B"]. *)
Lemma C2_counterexample :
  exists jb ev,
    Scenario.run_A_B_reap = Ok tt jb
    /\ published jb = [ev]
    /\ ev !! "message" = Some (VString ("A" +:+ newline +:+ " B"))
    /\ ev !! "message" <> Some (VString ("A" +:+ newline +:+ "B")).
Proof.
  eexists _, _. split; [vm_compute; reflexivity|].
  split; [reflexivity|]. split; [reflexivity|]. vm_compute. discriminate.
Qed.

(** C4.  Merging a continuation line changes, in the buffered entry of its
    key, the message (the old message, a newline, the new message) and the
    time, and nothing else: every other field of the buffered event, the
    cursor among them, and the entry's type are those of the entry as it
    was, whatever the continuation line carries; no other entry changes and
    nothing is published or sent.  The reaper, finding the entry stale,
    publishes that event and sends the cursor the entry already had. *)
Theorem C4_merge_changes_message_and_time_only clock config event jb m k old om :
  asString (event !! "message") = Some m ->
  asString (event !! "logBufferingType") = Some k ->
  isContinuation m = true ->
  journalTypeOutstandingLogBuffer jb !! k = Some old ->
  asString (logEvent old !! "message") = Some om ->
  exists jb' merged,
    flushOrBufferLogs clock config event jb = Ok tt jb'
    /\ journalTypeOutstandingLogBuffer jb' !! k = Some merged
    /\ logEvent merged !! "message" = Some (VString (om +:+ newline +:+ m))
    /\ time merged = clock (nowCalls jb)
    /\ logType merged = logType old
    /\ (forall field, field <> "message" -> logEvent merged !! field = logEvent old !! field)
    /\ logEvent merged !! "cursor" = logEvent old !! "cursor"
    /\ (forall k', k' <> k ->
          journalTypeOutstandingLogBuffer jb' !! k' = journalTypeOutstandingLogBuffer jb !! k')
    /\ published jb' = published jb
    /\ cursorChan jb' = cursorChan jb
    /\ (forall c,
          asString (logEvent old !! "cursor") = Some c ->
          isStale config (clock (nowCalls jb')) merged = true ->
          exists jb'',
            flushStaleEntry clock config k jb' = Ok tt jb''
            /\ published jb'' = published jb ++ [logEvent merged]
            /\ cursorChan jb'' = cursorChan jb ++ [c]).
Proof.
  intros Hm Hk Hc Hold Hom.
  pose proof (flushOrBufferLogs_merge clock config event jb m k old om Hm Hk Hc Hold Hom)
    as Hrun.
  match type of Hrun with _ = Ok tt ?s => set (jb' := s) in * end.
  set (merged := {| time := clock (nowCalls jb);
                    logEvent := <["message" := VString (om +:+ newline +:+ m)]> (logEvent old);
                    logType := logType old |}).
  assert (journalTypeOutstandingLogBuffer jb' !! k = Some merged) as Hmerged
      by apply lookup_insert_eq.
  exists jb', merged.
  split; [done|]. split; [done|].
  split; [apply lookup_insert_eq|].
  split; [done|]. split; [done|].
  split; [intros field Hne; by apply lookup_insert_ne|].
  split; [by apply lookup_insert_ne|].
  split; [intros k' Hne; by apply lookup_insert_ne|].
  split; [done|]. split; [done|].
  intros c Hcur Hstale.
  rewrite (flushStaleEntry_run clock config k jb' merged Hmerged), Hstale.
  assert (asString (logEvent merged !! "cursor") = Some c) as ->.
  { cbn. by rewrite lookup_insert_ne. }
  eexists. split; [done|]. done.
Qed.

(** The scenario: [" B"] merges into the entry of ["A"], whose cursor stays. *)
Lemma C4_witness :
  exists jb' merged,
    flushOrBufferLogs Scenario.clock Scenario.config (Scenario.line " B" "c2") Scenario.holdingA
      = Ok tt jb'
    /\ journalTypeOutstandingLogBuffer jb' !! "42" = Some merged
    /\ logEvent merged !! "message" = Some (VString ("A" +:+ newline +:+ " B"))
    /\ logEvent merged !! "cursor" = Some (VString "c1").
Proof.
  destruct (C4_merge_changes_message_and_time_only Scenario.clock Scenario.config
              (Scenario.line " B" "c2") Scenario.holdingA " B" "42"
              {| time := Scenario.clock 0; logEvent := Scenario.line "A" "c1"; logType := "42" |}
              "A" eq_refl eq_refl eq_refl eq_refl eq_refl)
    as (jb' & merged & H1 & H2 & H3 & _ & _ & _ & H7 & _).
  exists jb', merged. rewrite H7. done.
Defined.

(** C9.  An event counts as a continuation exactly when its message is not
    empty and starts with a space or a tab; the empty message never does.
    The classification is what decides the call: for a key with a buffered
    entry, a continuation is merged into it and nothing is published, and
    any other event replaces the entry, which is published. *)
Theorem C9_continuation_classification clock config event jb m k old om :
  asString (event !! "message") = Some m ->
  asString (event !! "logBufferingType") = Some k ->
  journalTypeOutstandingLogBuffer jb !! k = Some old ->
  asString (logEvent old !! "message") = Some om ->
  metricsReady config jb event ->
  let continuation := m <> "" /\ startsWithSpaceOrTab m in
  (isContinuation m = true <-> continuation)
  /\ isContinuation "" = false
  /\ exists jb',
       flushOrBufferLogs clock config event jb = Ok tt jb'
       /\ (continuation ->
           published jb' = published jb
           /\ logEvent <$> journalTypeOutstandingLogBuffer jb' !! k =
                Some (<["message" := VString (om +:+ newline +:+ m)]> (logEvent old)))
       /\ (~ continuation ->
           published jb' = published jb ++ [logEvent old]
           /\ logEvent <$> journalTypeOutstandingLogBuffer jb' !! k = Some event).
Proof.
  intros Hm Hk Hold Hom Hmet continuation.
  split; [apply isContinuation_iff|]. split; [done|].
  destruct (isContinuation m) eqn:Hc.
  - assert continuation as Hyes by (by apply isContinuation_iff).
    eexists. split; [by eapply flushOrBufferLogs_merge|]. split; [|done].
    intros _. split; [done|]. cbn. by rewrite lookup_insert_eq.
  - assert (~ continuation) as Hno.
    { intros H%isContinuation_iff. congruence. }
    destruct (flushOrBufferLogs_replace clock config event jb m k Hm Hk Hc Hmet)
      as (jb' & Hrun & Hbuf & Hpub & _).
    exists jb'. split; [done|]. split; [done|].
    intros _. rewrite Hpub, Hold, Hbuf, lookup_insert_eq. done.
Qed.

(** The scenario: [" B"] is a continuation. *)
Lemma C9_witness :
  (isContinuation " B" = true <-> " B" <> "" /\ startsWithSpaceOrTab " B")
  /\ exists jb',
       flushOrBufferLogs Scenario.clock Scenario.config (Scenario.line " B" "c2")
         Scenario.holdingA = Ok tt jb'.
Proof.
  destruct (C9_continuation_classification Scenario.clock Scenario.config
              (Scenario.line " B" "c2") Scenario.holdingA " B" "42"
              {| time := Scenario.clock 0; logEvent := Scenario.line "A" "c1"; logType := "42" |}
              "A" eq_refl eq_refl eq_refl eq_refl (or_introl eq_refl))
    as (H1 & _ & jb' & H3 & _).
  split; [exact H1 | by exists jb'].
Defined.

(** C10.  The type assertions have no error branch.  An event without a
    string under ["message"] or under ["logBufferingType"] makes
    [flushOrBufferLogs] panic, and a buffered event without a string under
    ["cursor"] makes the pass of the reaper that finds its entry stale
    panic.  With those fields in place (and, for the merge, a string message
    in the buffered event, which every buffered event has that came through
    [flushOrBufferLogs]) both return. *)
Theorem C10_unchecked_assertions clock config :
  (forall event jb,
     asString (event !! "message") = None \/ asString (event !! "logBufferingType") = None ->
     flushOrBufferLogs clock config event jb = Panic jb)
  /\ (forall keys jb i k b,
        NoDup keys ->
        (forall k', k' ∈ keys -> is_Some (journalTypeOutstandingLogBuffer jb !! k')) ->
        keys !! i = Some k ->
        journalTypeOutstandingLogBuffer jb !! k = Some b ->
        isStale config (clock (nowCalls jb + i)%nat) b = true ->
        asString (logEvent b !! "cursor") = None ->
        exists jb', flushStaleLogMessages clock config keys jb = Panic jb')
  /\ (forall event jb,
        is_Some (asString (event !! "message")) ->
        is_Some (asString (event !! "logBufferingType")) ->
        (forall k old, journalTypeOutstandingLogBuffer jb !! k = Some old ->
           is_Some (asString (logEvent old !! "message"))) ->
        metricsReady config jb event ->
        exists jb', flushOrBufferLogs clock config event jb = Ok tt jb')
  /\ (forall keys jb,
        NoDup keys ->
        (forall k', k' ∈ keys -> is_Some (journalTypeOutstandingLogBuffer jb !! k')) ->
        (forall k b, journalTypeOutstandingLogBuffer jb !! k = Some b ->
           is_Some (asString (logEvent b !! "cursor"))) ->
        exists jb', flushStaleLogMessages clock config keys jb = Ok tt jb').
Proof.
  split; [apply flushOrBufferLogs_panic|]. split; [|split].
  - intros keys jb i k b Hnd Hall Hi Hb Hst Hc.
    pose proof (flushStaleLogMessages_run clock config keys jb Hnd Hall) as Hrun.
    cbn zeta in Hrun.
    destruct (flushStaleLogMessages clock config keys jb) as [[] jb'|jb']; [|by exists jb'].
    destruct Hrun as (Hcur & _). destruct (Hcur i k b Hi Hb Hst) as [c Hc']. congruence.
  - intros event jb [m Hm] [k Hk] Hmsg Hmet.
    destruct (isContinuation m) eqn:Hcont.
    + destruct (journalTypeOutstandingLogBuffer jb !! k) as [old|] eqn:Hold.
      * destruct (Hmsg k old Hold) as [om Hom].
        eexists. by eapply flushOrBufferLogs_merge.
      * eexists. by eapply flushOrBufferLogs_orphan.
    + destruct (flushOrBufferLogs_replace clock config event jb m k Hm Hk Hcont Hmet)
        as (jb' & Hrun & _).
      by exists jb'.
  - intros keys jb Hnd Hall Hcur.
    pose proof (flushStaleLogMessages_run clock config keys jb Hnd Hall) as Hrun.
    cbn zeta in Hrun.
    destruct (flushStaleLogMessages clock config keys jb) as [[] jb'|jb']; [by exists jb'|].
    destruct Hrun as (i & k & b & _ & Hb & _ & Hnone).
    destruct (Hcur k b Hb) as [c Hc]. congruence.
Qed.

(** The scenario: events without a message or without a key, and a stale
    entry without a cursor. *)
Lemma C10_witness :
  flushOrBufferLogs Scenario.clock Scenario.config
    (<["logBufferingType" := VString "42"]> ∅) Scenario.idle = Panic Scenario.idle
  /\ flushOrBufferLogs Scenario.clock Scenario.config
       (<["message" := VString "A"]> ∅) Scenario.idle = Panic Scenario.idle
  /\ exists jb',
       flushStaleLogMessages Scenario.clock Scenario.config ["42"] Scenario.holdingUnmarked
         = Panic jb'.
Proof.
  destruct (C10_unchecked_assertions Scenario.clock Scenario.config) as (Hpanic & Hreap & _).
  split; [apply Hpanic; left; reflexivity|].
  split; [apply Hpanic; right; reflexivity|].
  apply (Hreap ["42"] Scenario.holdingUnmarked 0%nat "42"
           {| time := Scenario.clock 0;
              logEvent := <["message" := VString "A"]> ∅;
              logType := "42" |}).
  - apply NoDup_singleton.
  - intros k' ->%list_elem_of_singleton. by eexists.
  - reflexivity.
  - reflexivity.
  - reflexivity.
  - reflexivity.
Defined.

(** ** The claims about the cursor writer *)

Lemma writeCursorRange_app received cursor writes :
  writeCursorRange received cursor writes =
    (match last received with
     | Some (c, _) => c
     | None => cursor
     end,
     writes ++ periodicWrites received).
Proof.
  revert cursor writes. induction received as [|[c tick] rest IH]; intros cursor writes; cbn.
  - by rewrite app_nil_r.
  - rewrite IH. f_equal.
    + rewrite last_cons. by destruct (last rest) as [[]|].
    + unfold saveCursorState. destruct tick, (String.eqb c ""); cbn;
        by rewrite <- ?app_assoc.
Qed.

(** C6 (as the code has it).  When the channel is closed the writer saves
    the last value it received, whatever the ticker did, provided that
    value is not the empty string; a last value that is the empty string is
    not saved, and with nothing received nothing is ever written. *)
Theorem C6_final_save_of_last_cursor :
  writeCursorLoop [] = []
  /\ (forall received c tick,
        c <> "" ->
        writeCursorLoop (received ++ [(c, tick)]) =
          periodicWrites (received ++ [(c, tick)]) ++ [c])
  /\ (forall received c,
        c <> "" ->
        Forall (fun r => r.2 = false) received ->
        writeCursorLoop (received ++ [(c, false)]) = [c])
  /\ (forall received tick,
        writeCursorLoop (received ++ [("", tick)]) = periodicWrites received).
Proof.
  assert (forall received c tick,
            writeCursorLoop (received ++ [(c, tick)]) =
            saveCursorState c (periodicWrites (received ++ [(c, tick)]))) as Hloop.
  { intros received c tick. unfold writeCursorLoop.
    rewrite writeCursorRange_app, last_snoc. done. }
  assert (forall received, Forall (fun r : string * bool => r.2 = false) received ->
            periodicWrites received = []) as Hquiet.
  { induction 1 as [|[c tick] rest Htick _ IH]; cbn in *; [done|]. by rewrite Htick, IH. }
  split; [done|]. split; [|split].
  - intros received c tick Hc. rewrite Hloop. unfold saveCursorState.
    apply String.eqb_neq in Hc. by rewrite Hc.
  - intros received c Hc Hticks. rewrite Hloop. unfold saveCursorState.
    apply String.eqb_neq in Hc. rewrite Hc. cbn.
    rewrite Hquiet; [done|]. apply Forall_app. split; [done|]. by constructor.
  - intros received tick. rewrite Hloop. cbn.
    induction received as [|[c t] rest IH]; cbn.
    + by destruct tick.
    + by rewrite IH.
Qed.

(** Three cursors and no tick: the last one is written. *)
Lemma C6_witness :
  writeCursorLoop ([("c1", false); ("c2", false)] ++ [("c3", false)]) = ["c3"].
Proof.
  destruct C6_final_save_of_last_cursor as (_ & _ & Hquiet & _).
  apply Hquiet; [discriminate|]. repeat constructor.
Defined.

(** C6 as it was stated fails: the writer receives ["c1"] with the ticker
    ready and then the empty string; the last value it saw is the empty
    string, and the final save writes nothing, so the file is written once,
    with ["c1"]. *)
Lemma C6_counterexample :
  writeCursorLoop [("c1", true); ("", false)] = ["c1"]
  /\ last (writeCursorLoop [("c1", true); ("", false)]) <> Some "".
Proof. split; [reflexivity | discriminate]. Qed.

(** ** [ParseInt] and [Format] on known values *)

Example ParseInt_microseconds :
  ParseInt "1136214245123456" = (1136214245123456, None).
Proof. reflexivity. Qed.

Example ParseInt_signs :
  ParseInt "-17" = (-17, None) /\ ParseInt "+17" = (17, None).
Proof. split; reflexivity. Qed.

Example ParseInt_syntax_errors :
  ParseInt "" = (0, Some ErrSyntax)
  /\ ParseInt "12a" = (0, Some ErrSyntax)
  /\ ParseInt " 12" = (0, Some ErrSyntax)
  /\ ParseInt "-" = (0, Some ErrSyntax).
Proof. repeat split; reflexivity. Qed.

Example ParseInt_range :
  ParseInt "9223372036854775807" = (maxInt64, None)
  /\ ParseInt "9223372036854775808" = (maxInt64, Some ErrRange)
  /\ ParseInt "-9223372036854775808" = (minInt64, None)
  /\ ParseInt "-9223372036854775809" = (minInt64, Some ErrRange)
  /\ ParseInt "99999999999999999999999" = (maxInt64, Some ErrRange).
Proof. repeat split; vm_compute; reflexivity. Qed.

(** The reference time of the layout language, and a leap day. *)
Example Format_reference_time :
  GoTime.Format (GoTime.Unix (fun _ => ("MST", -25200)) 1136239445 0)
    "Mon Jan _2 15:04:05 MST 2006 -0700 3:04PM 01/02 06"
    = "Mon Jan  2 15:04:05 MST 2006 -0700 3:04PM 01/02 06".
Proof. vm_compute. reflexivity. Qed.

Example Format_leap_day :
  GoTime.Format (GoTime.Unix GoTime.UTC 951782400 0) "Monday, 2 January 2006 15:04:05.000 Z07:00"
    = "Tuesday, 29 February 2000 00:00:00.000 Z".
Proof. vm_compute. reflexivity. Qed.

(** ** The claims about normalisation *)

Section NormalizerFacts.

Variable MapStrFromJournalEntry : JournalEntry -> bool -> bool -> string -> list string -> MapStr.
Variable Local : GoTime.Location.
Variable config : Config.

Lemma Run_event_logBufferingType rawEvent :
  Run_event MapStrFromJournalEntry Local config rawEvent !! "logBufferingType" =
    Some (VString (streamKey rawEvent)).
Proof.
  unfold Run_event, streamKey, index.
  destruct (Fields rawEvent !! timestampField) as [tmStr|];
    [destruct (ParseInt tmStr) as [tm [err|]]|];
    rewrite !(lookup_insert_ne _ _ "logBufferingType") by done;
    destruct (Fields rawEvent !! containerIdField); cbn;
    by rewrite lookup_insert_eq.
Qed.

Lemma Run_event_timestamps rawEvent :
  Run_event MapStrFromJournalEntry Local config rawEvent !! "utcTimestamp" =
    Some (VInt64 (derivedMicros rawEvent))
  /\ Run_event MapStrFromJournalEntry Local config rawEvent !! "@timestamp" =
       Some (VString (convertMicrosecondsEpochToISO8601 Local (derivedMicros rawEvent))).
Proof.
  unfold Run_event, derivedMicros.
  destruct (Fields rawEvent !! timestampField) as [tmStr|];
    [destruct (ParseInt tmStr) as [tm [err|]]|];
    (split; [by rewrite lookup_insert_eq|]);
    rewrite lookup_insert_ne by done; by rewrite lookup_insert_eq.
Qed.

(** Whatever the helper selects, the event carries the record's cursor as a
    string: the assertion of the reaper cannot fail on an event of [Run]. *)
Lemma Run_event_cursor rawEvent :
  asString (Run_event MapStrFromJournalEntry Local config rawEvent !! "cursor") =
    Some (Cursor rawEvent).
Proof.
  unfold Run_event.
  destruct (Fields rawEvent !! timestampField) as [tmStr|];
    [destruct (ParseInt tmStr) as [tm [err|]]|];
    rewrite !(lookup_insert_ne _ _ "cursor") by done;
    by rewrite lookup_insert_eq.
Qed.

End NormalizerFacts.

(** C3 (as the code has it).  The stream key of the event is the value of
    the container-identity field when the record has that field, and
    otherwise the value of the process-identifier field, which is the empty
    string when the record has no such field.  It is non-empty exactly when
    that value is. *)
Theorem C3_streamKey_is_the_selected_field MapStrFromJournalEntry Local config rawEvent :
  let event := Run_event MapStrFromJournalEntry Local config rawEvent in
  (forall containerId,
     Fields rawEvent !! containerIdField = Some containerId ->
     event !! "logBufferingType" = Some (VString containerId))
  /\ (forall pid,
        Fields rawEvent !! containerIdField = None ->
        Fields rawEvent !! processField = Some pid ->
        event !! "logBufferingType" = Some (VString pid))
  /\ (Fields rawEvent !! containerIdField = None ->
      Fields rawEvent !! processField = None ->
      event !! "logBufferingType" = Some (VString ""))
  /\ asString (event !! "logBufferingType") = Some (streamKey rawEvent).
Proof.
  intros event. unfold event. rewrite Run_event_logBufferingType. unfold streamKey, index.
  repeat split.
  - by intros containerId ->.
  - by intros pid -> ->.
  - by intros -> ->.
Qed.

(** The scenario: a record of the kernel. *)
Lemma C3_witness :
  Run_event Scenario.noFields GoTime.UTC Scenario.config Scenario.kernelRecord
    !! "logBufferingType" = Some (VString "").
Proof.
  destruct (C3_streamKey_is_the_selected_field Scenario.noFields GoTime.UTC Scenario.config
              Scenario.kernelRecord) as (_ & _ & Hnone & _).
  apply Hnone; reflexivity.
Defined.

(** C3 as it was stated fails: a record with neither a container identity
    nor a process identifier gets the empty string as its stream key. *)
Lemma C3_counterexample :
  Fields Scenario.kernelRecord !! containerIdField = None
  /\ Fields Scenario.kernelRecord !! processField = None
  /\ asString (Run_event Scenario.noFields GoTime.UTC Scenario.config Scenario.kernelRecord
                 !! "logBufferingType") = Some "".
Proof. repeat split; vm_compute; reflexivity. Qed.

(** C8.  The event's microseconds are the high-resolution timestamp field
    read as a decimal integer when the record has that field and it parses,
    and the record's own realtime timestamp when the field is missing or
    does not parse; the event always carries them, and the timestamp string
    made from them, so a malformed field never makes normalisation fail. *)
Theorem C8_timestamp_with_fallback MapStrFromJournalEntry Local config rawEvent :
  let event := Run_event MapStrFromJournalEntry Local config rawEvent in
  event !! "utcTimestamp" = Some (VInt64 (derivedMicros rawEvent))
  /\ event !! "@timestamp" =
       Some (VString (convertMicrosecondsEpochToISO8601 Local (derivedMicros rawEvent)))
  /\ (forall tmStr tm,
        Fields rawEvent !! timestampField = Some tmStr ->
        ParseInt tmStr = (tm, None) ->
        event !! "utcTimestamp" = Some (VInt64 tm))
  /\ (forall tmStr v err,
        Fields rawEvent !! timestampField = Some tmStr ->
        ParseInt tmStr = (v, Some err) ->
        event !! "utcTimestamp" = Some (VInt64 (int64 (RealtimeTimestamp rawEvent))))
  /\ (Fields rawEvent !! timestampField = None ->
      event !! "utcTimestamp" = Some (VInt64 (int64 (RealtimeTimestamp rawEvent)))).
Proof.
  intros event. unfold event.
  destruct (Run_event_timestamps MapStrFromJournalEntry Local config rawEvent) as [Hutc Hts].
  split; [done|]. split; [done|]. rewrite Hutc. unfold derivedMicros.
  repeat split.
  - by intros tmStr tm -> ->.
  - by intros tmStr v err -> ->.
  - by intros ->.
Qed.

(** The scenario: a timestamp field that is no number, and a record without
    the field. *)
Lemma C8_witness :
  Run_event Scenario.noFields GoTime.UTC Scenario.config Scenario.malformedRecord
    !! "utcTimestamp" = Some (VInt64 1136214245123456)
  /\ Run_event Scenario.noFields GoTime.UTC Scenario.config Scenario.kernelRecord
       !! "utcTimestamp" = Some (VInt64 1136214245123456).
Proof.
  split.
  - destruct (C8_timestamp_with_fallback Scenario.noFields GoTime.UTC Scenario.config
                Scenario.malformedRecord) as (_ & _ & _ & Hbad & _).
    apply (Hbad "12a" 0 ErrSyntax); reflexivity.
  - destruct (C8_timestamp_with_fallback Scenario.noFields GoTime.UTC Scenario.config
                Scenario.kernelRecord) as (_ & _ & _ & _ & Hnone).
    apply Hnone. reflexivity.
Defined.

(** ** The timestamp string *)

Lemma append_assoc (a b c : string) : (a +:+ b) +:+ c = a +:+ b +:+ c.
Proof.
  induction a as [|x a IH]; [reflexivity|].
  change (String x ((a +:+ b) +:+ c) = String x (a +:+ b +:+ c)). by f_equal.
Qed.

(** How the layout of [convertMicrosecondsEpochToISO8601] is read: the date
    and the time of day down to the second, then the literal [.7607], the
    hour on the 12-hour clock (named by the [3] of the layout) and the
    literal [8998Z].  No element of it is a fractional second. *)
Lemma layout_elements (t : GoTime.Time) :
  GoTime.Format t "2006-01-02T15:04:05.760738998Z" =
    GoTime.appendStd t GoTime.stdLongYear
      +:+ "-" +:+ GoTime.appendStd t GoTime.stdZeroMonth
      +:+ "-" +:+ GoTime.appendStd t GoTime.stdZeroDay
      +:+ "T" +:+ GoTime.appendStd t GoTime.stdHour
      +:+ ":" +:+ GoTime.appendStd t GoTime.stdZeroMinute
      +:+ ":" +:+ GoTime.appendStd t GoTime.stdZeroSecond
      +:+ ".7607" +:+ GoTime.appendStd t GoTime.stdHour12
      +:+ "8998Z".
Proof.
  change (GoTime.Format t "2006-01-02T15:04:05.760738998Z") with
    ((((((((GoTime.appendStd t GoTime.stdLongYear
      +:+ "-" +:+ GoTime.appendStd t GoTime.stdZeroMonth)
      +:+ "-" +:+ GoTime.appendStd t GoTime.stdZeroDay)
      +:+ "T" +:+ GoTime.appendStd t GoTime.stdHour)
      +:+ ":" +:+ GoTime.appendStd t GoTime.stdZeroMinute)
      +:+ ":" +:+ GoTime.appendStd t GoTime.stdZeroSecond)
      +:+ ".7607" +:+ GoTime.appendStd t GoTime.stdHour12)
      +:+ "8998Z")).
  by rewrite !append_assoc.
Qed.

(** Outside the fractional second, what a layout element prints depends on
    the second of the time and on its location only. *)
Lemma appendStd_whole_second (t t' : GoTime.Time) (std : GoTime.Std) :
  GoTime.unixSec t = GoTime.unixSec t' ->
  GoTime.loc t = GoTime.loc t' ->
  match std with
  | GoTime.stdFracSecond0 _ _ | GoTime.stdFracSecond9 _ _ => True
  | _ => GoTime.appendStd t std = GoTime.appendStd t' std
  end.
Proof.
  intros Hsec Hloc. unfold GoTime.appendStd, GoTime.locabs. rewrite Hsec, Hloc.
  by destruct std.
Qed.

(** [time.Unix] applied to the quotient and the remainder of a count of
    microseconds lands in the second the count falls in. *)
Lemma Unix_of_micros (Local : GoTime.Location) (us : Z) :
  let t := GoTime.Unix Local (Z.quot us microseconds) (Z.rem us microseconds * microsToNanos) in
  GoTime.unixSec t = us / 1000000
  /\ GoTime.nsec t = (us mod 1000000) * 1000
  /\ GoTime.loc t = Local.
Proof.
  unfold GoTime.Unix, microseconds, microsToNanos.
  pose proof (Z.quot_rem' us 1000000) as E.
  pose proof (Z.rem_bound_abs us 1000000) as Bp.
  set (q := Z.quot us 1000000) in *. set (r := Z.rem us 1000000) in *.
  clearbody q r.
  assert (-1000000 < r < 1000000) as Hr by lia.
  assert (Z.quot (r * 1000) 1000000000 = 0) as Hn.
  { apply Z.quot_small_iff; [lia|]. lia. }
  destruct (Z.ltb_spec (r * 1000) 0) as [Hneg|Hpos]; cbn [orb].
  - rewrite Hn. destruct (Z.ltb_spec (r * 1000 - 0 * 1000000000) 0); [|exfalso; lia]. cbn.
    assert (us / 1000000 = q - 1 /\ us mod 1000000 = r + 1000000) as [-> ->]; [|by repeat split; try lia].
    symmetry in E. pose proof (Z.div_mod_unique 1000000 (q - 1) (us / 1000000)
      (r + 1000000) (us mod 1000000)) as U.
    pose proof (Z.div_mod us 1000000) as D. pose proof (Z.mod_pos_bound us 1000000) as B.
    lia.
  - destruct (Z.leb_spec 1000000000 (r * 1000)); [exfalso; lia|]. cbn.
    assert (us / 1000000 = q /\ us mod 1000000 = r) as [-> ->]; [|by repeat split; try lia].
    pose proof (Z.div_mod_unique 1000000 q (us / 1000000) r (us mod 1000000)) as U.
    pose proof (Z.div_mod us 1000000) as D. pose proof (Z.mod_pos_bound us 1000000) as B.
    lia.
Qed.

(** The string [convertMicrosecondsEpochToISO8601] returns is the same for
    all counts of microseconds that fall in the same second. *)
Lemma convert_ignores_microseconds (Local : GoTime.Location) (a b : Z) :
  a / 1000000 = b / 1000000 ->
  convertMicrosecondsEpochToISO8601 Local a = convertMicrosecondsEpochToISO8601 Local b.
Proof.
  intros Hsame. unfold convertMicrosecondsEpochToISO8601.
  pose proof (Unix_of_micros Local a) as Ha. pose proof (Unix_of_micros Local b) as Hb.
  cbv zeta in Ha, Hb.
  set (ta := GoTime.Unix Local (Z.quot a microseconds) _) in *.
  set (tb := GoTime.Unix Local (Z.quot b microseconds) _) in *.
  destruct Ha as (Ha & _ & La). destruct Hb as (Hb & _ & Lb).
  assert (GoTime.unixSec ta = GoTime.unixSec tb) as Hsec by congruence.
  assert (GoTime.loc ta = GoTime.loc tb) as Hloc by congruence.
  rewrite !layout_elements.
  rewrite (appendStd_whole_second ta tb GoTime.stdLongYear Hsec Hloc).
  rewrite (appendStd_whole_second ta tb GoTime.stdZeroMonth Hsec Hloc).
  rewrite (appendStd_whole_second ta tb GoTime.stdZeroDay Hsec Hloc).
  rewrite (appendStd_whole_second ta tb GoTime.stdHour Hsec Hloc).
  rewrite (appendStd_whole_second ta tb GoTime.stdZeroMinute Hsec Hloc).
  rewrite (appendStd_whole_second ta tb GoTime.stdZeroSecond Hsec Hloc).
  rewrite (appendStd_whole_second ta tb GoTime.stdHour12 Hsec Hloc).
  done.
Qed.

(** C7 (the code departs from it).  One microsecond and 999999 microseconds
    after the epoch are rendered as the same string, and the digits after
    the point are not the microseconds: they are [7607], the hour on the
    12-hour clock, and [8998].  With a layout that names a fractional second
    the same conversion does print the microseconds. *)
Theorem C7_fraction_is_not_the_microseconds :
  convertMicrosecondsEpochToISO8601 GoTime.UTC 1 = "1970-01-01T00:00:00.7607128998Z"
  /\ convertMicrosecondsEpochToISO8601 GoTime.UTC 999999 = "1970-01-01T00:00:00.7607128998Z"
  /\ convertMicrosecondsEpochToISO8601 GoTime.UTC 1136214245123456
       = "2006-01-02T15:04:05.760738998Z"
  /\ GoTime.Format (GoTime.Unix GoTime.UTC 0 (1 * microsToNanos)) "2006-01-02T15:04:05.000000Z"
       = "1970-01-01T00:00:00.000001Z".
Proof. repeat split; vm_compute; reflexivity. Qed.

(** * Beyond the claims *)

(** ** Opening the journal *)

Section InitJournalFacts.

Variable SeekPositionCursor SeekPositionHead SeekPositionTail SeekPositionDefault : string.
Variable config : SeekConfig.
Variable answers : Answers.

Lemma addUnitMatches_accepted units :
  filtersAccepted answers units ->
  addUnitMatches answers units = (unitMatch <$> units, None).
Proof.
  induction 1 as [|unit rest Hunit _ IH]; cbn; [done|]. by rewrite Hunit, IH.
Qed.

Lemma addUnitMatches_refused before unit after e :
  filtersAccepted answers before ->
  AddMatch answers (SD_JOURNAL_FIELD_SYSTEMD_UNIT +:+ "=" +:+ unit) = Some e ->
  addUnitMatches answers (before ++ unit :: after) =
    (unitMatch <$> (before ++ [unit]),
     Some ("Filtering unit " +:+ unit +:+ " failed: " +:+ e)).
Proof.
  intros Hbefore Hunit. induction Hbefore as [|u rest Hu _ IH]; cbn.
  - by rewrite Hunit.
  - by rewrite Hu, IH.
Qed.

(** The cursor branch, once the journal is open and the filters are in. *)
Lemma initJournal_at_cursor :
  NewJournal answers = None ->
  filtersAccepted answers (Units config) ->
  SeekPosition config = SeekPositionCursor ->
  initJournal SeekPositionCursor SeekPositionHead SeekPositionTail SeekPositionDefault
    config answers =
  let matches := unitMatch <$> Units config in
  match ReadFile answers (CursorStateFile config) with
  | (cursor, None) =>
      match SeekCursor answers cursor with
      | None => (matches ++ [SeekCursorCall cursor], None)
      | Some _ =>
          if String.eqb (CursorSeekFallback config) SeekPositionDefault
          then (matches ++ [SeekCursorCall cursor], None)
          else
            let '(calls, result) :=
              seekSwitch SeekPositionHead SeekPositionTail answers
                (CursorSeekFallback config) None in
            (matches ++ [SeekCursorCall cursor] ++ calls, result)
      end
  | (_, Some _) =>
      if String.eqb (CursorSeekFallback config) SeekPositionDefault
      then (matches ++ [], None)
      else
        let '(calls, result) :=
          seekSwitch SeekPositionHead SeekPositionTail answers
            (CursorSeekFallback config) None in
        (matches ++ [] ++ calls, result)
  end.
Proof.
  intros Hopen Hunits Hcursor. unfold initJournal.
  rewrite Hopen, (addUnitMatches_accepted _ Hunits), Hcursor, String.eqb_refl.
  unfold seekToHelper.
  destruct (ReadFile answers (CursorStateFile config)) as [cursor [e|]]; [done|].
  by destruct (SeekCursor answers cursor).
Qed.

End InitJournalFacts.

(** X1.  [initJournal] stops at the first unit whose filter the journal
    refuses: the units before it are filtered, the ones after it are not,
    no seek is made, and the error names the unit and carries the journal's
    message. *)
Theorem initJournal_stops_at_refused_filter
    (Cursor_ Head_ Tail_ Default_ : string) (config : SeekConfig) (answers : Answers)
    (before after : list string) (unit e : string) :
  NewJournal answers = None ->
  Units config = before ++ unit :: after ->
  filtersAccepted answers before ->
  AddMatch answers (SD_JOURNAL_FIELD_SYSTEMD_UNIT +:+ "=" +:+ unit) = Some e ->
  initJournal Cursor_ Head_ Tail_ Default_ config answers =
    (unitMatch <$> (before ++ [unit]),
     Some ("Filtering unit " +:+ unit +:+ " failed: " +:+ e)).
Proof.
  intros Hopen Hunits Hbefore Hrefused. unfold initJournal.
  by rewrite Hopen, Hunits, (addUnitMatches_refused answers before unit after e).
Qed.

(** The scenario: the second of three units is refused. *)
Lemma initJournal_stops_at_refused_filter_witness :
  initJournal "cursor" "head" "tail" "none" InitScenario.filtered InitScenario.pickyJournal =
    ([AddMatchCall "_SYSTEMD_UNIT=sshd.service"; AddMatchCall "_SYSTEMD_UNIT=bad.service"],
     Some "Filtering unit bad.service failed: invalid argument").
Proof.
  apply (initJournal_stops_at_refused_filter "cursor" "head" "tail" "none"
           InitScenario.filtered InitScenario.pickyJournal
           ["sshd.service"] ["docker.service"] "bad.service" "invalid argument").
  - reflexivity.
  - reflexivity.
  - repeat constructor.
  - reflexivity.
Defined.

(** X2.  Asked to resume at the cursor, with a state file it can read and a
    cursor the journal takes, [initJournal] seeks to the content of the file
    and reports success; it seeks neither to the head nor to the tail,
    whatever the fallback. *)
Theorem initJournal_resumes_at_cursor
    (Cursor_ Head_ Tail_ Default_ : string) (config : SeekConfig) (answers : Answers)
    (cursor : string) :
  NewJournal answers = None ->
  filtersAccepted answers (Units config) ->
  SeekPosition config = Cursor_ ->
  ReadFile answers (CursorStateFile config) = (cursor, None) ->
  SeekCursor answers cursor = None ->
  initJournal Cursor_ Head_ Tail_ Default_ config answers =
    ((unitMatch <$> Units config) ++ [SeekCursorCall cursor], None).
Proof.
  intros Hopen Hunits Hposition Hread Hseek.
  rewrite (initJournal_at_cursor _ _ _ _ _ _ Hopen Hunits Hposition).
  cbn zeta. by rewrite Hread, Hseek.
Qed.

(** The scenario: a good cursor, with the head as fallback. *)
Lemma initJournal_resumes_at_cursor_witness :
  initJournal "cursor" "head" "tail" "none" (InitScenario.resume "head")
    InitScenario.goodCursor =
    ([AddMatchCall "_SYSTEMD_UNIT=sshd.service"; AddMatchCall "_SYSTEMD_UNIT=docker.service";
      SeekCursorCall "s=1;i=2"], None).
Proof.
  apply (initJournal_resumes_at_cursor "cursor" "head" "tail" "none"
           (InitScenario.resume "head") InitScenario.goodCursor "s=1;i=2").
  - reflexivity.
  - repeat constructor.
  - reflexivity.
  - reflexivity.
  - reflexivity.
Defined.

(** X3.  When resuming at the cursor fails and the fallback is the default
    position, [initJournal] reports success all the same: the error of the
    failed read or seek lives in the [err] of the inner [if] statement, and
    the [err] returned is the outer one, which is nil.  No other seek is
    made, so the journal is left where it was opened. *)
Theorem initJournal_hides_cursor_failure
    (Cursor_ Head_ Tail_ Default_ : string) (config : SeekConfig) (answers : Answers) :
  NewJournal answers = None ->
  filtersAccepted answers (Units config) ->
  SeekPosition config = Cursor_ ->
  cursorFails config answers ->
  CursorSeekFallback config = Default_ ->
  initJournal Cursor_ Head_ Tail_ Default_ config answers =
    ((unitMatch <$> Units config) ++ cursorAttempt config answers, None).
Proof.
  intros Hopen Hunits Hposition Hfails Hfallback.
  rewrite (initJournal_at_cursor _ _ _ _ _ _ Hopen Hunits Hposition).
  cbn zeta. unfold cursorFails, cursorAttempt in *. rewrite Hfallback, String.eqb_refl.
  destruct (ReadFile answers (CursorStateFile config)) as [cursor [e|]]; cbn in *; [done|].
  destruct Hfails as [[? [=]]|[e He]]. by rewrite He.
Qed.

(** The scenario: the journal refuses the saved cursor and no fallback is
    configured. *)
Lemma initJournal_hides_cursor_failure_witness :
  initJournal "cursor" "head" "tail" "none" (InitScenario.resume "none")
    InitScenario.staleCursor =
    ([AddMatchCall "_SYSTEMD_UNIT=sshd.service"; AddMatchCall "_SYSTEMD_UNIT=docker.service";
      SeekCursorCall "s=old"], None).
Proof.
  apply (initJournal_hides_cursor_failure "cursor" "head" "tail" "none"
           (InitScenario.resume "none") InitScenario.staleCursor).
  - reflexivity.
  - repeat constructor.
  - reflexivity.
  - right. by eexists.
  - reflexivity.
Defined.

(** X4.  When resuming at the cursor fails and the fallback is the head or
    the tail, [initJournal] seeks there next, and its result is that seek's:
    success, or the seek's error wrapped in a message. *)
Theorem initJournal_falls_back
    (Cursor_ Head_ Tail_ Default_ : string) (config : SeekConfig) (answers : Answers) :
  Head_ <> Default_ ->
  Tail_ <> Default_ ->
  Head_ <> Tail_ ->
  NewJournal answers = None ->
  filtersAccepted answers (Units config) ->
  SeekPosition config = Cursor_ ->
  cursorFails config answers ->
  let run := initJournal Cursor_ Head_ Tail_ Default_ config answers in
  (CursorSeekFallback config = Head_ ->
   run = ((unitMatch <$> Units config) ++ cursorAttempt config answers ++ [SeekHeadCall],
          seekFailure (SeekHead answers)))
  /\ (CursorSeekFallback config = Tail_ ->
      run = ((unitMatch <$> Units config) ++ cursorAttempt config answers ++ [SeekTailCall],
             seekFailure (SeekTail answers))).
Proof.
  intros HD TD HT Hopen Hunits Hposition Hfails run. unfold run.
  rewrite (initJournal_at_cursor _ _ _ _ _ _ Hopen Hunits Hposition).
  cbn zeta. unfold cursorFails, cursorAttempt, seekSwitch, seekToHelper, seekFailure in *.
  assert (String.eqb Head_ Default_ = false) as EHD by (by apply String.eqb_neq).
  assert (String.eqb Tail_ Default_ = false) as ETD by (by apply String.eqb_neq).
  assert (String.eqb Tail_ Head_ = false) as ETH by (by apply String.eqb_neq).
  split; intros ->; rewrite ?EHD, ?ETD, ?ETH, !String.eqb_refl.
  - destruct (ReadFile answers (CursorStateFile config)) as [cursor [e|]]; cbn in *.
    + by destruct (SeekHead answers).
    + destruct Hfails as [[? [=]]|[e He]]. rewrite He. by destruct (SeekHead answers).
  - destruct (ReadFile answers (CursorStateFile config)) as [cursor [e|]]; cbn in *.
    + by destruct (SeekTail answers).
    + destruct Hfails as [[? [=]]|[e He]]. rewrite He. by destruct (SeekTail answers).
Qed.

(** The scenario: the saved cursor is refused; falling back to the head
    succeeds, falling back to the tail fails. *)
Lemma initJournal_falls_back_witness :
  initJournal "cursor" "head" "tail" "none" (InitScenario.resume "head")
    InitScenario.staleCursor =
    ([AddMatchCall "_SYSTEMD_UNIT=sshd.service"; AddMatchCall "_SYSTEMD_UNIT=docker.service";
      SeekCursorCall "s=old"; SeekHeadCall], None)
  /\ initJournal "cursor" "head" "tail" "none" (InitScenario.resume "tail")
       InitScenario.staleCursor =
       ([AddMatchCall "_SYSTEMD_UNIT=sshd.service"; AddMatchCall "_SYSTEMD_UNIT=docker.service";
         SeekCursorCall "s=old"; SeekTailCall],
        Some "Seeking to a good position in journal failed: seek failed").
Proof.
  split.
  - apply (initJournal_falls_back "cursor" "head" "tail" "none" (InitScenario.resume "head")
             InitScenario.staleCursor); try discriminate; try reflexivity.
    + repeat constructor.
    + right. by eexists.
  - apply (initJournal_falls_back "cursor" "head" "tail" "none" (InitScenario.resume "tail")
             InitScenario.staleCursor); try discriminate; try reflexivity.
    + repeat constructor.
    + right. by eexists.
Defined.

Lemma last_after (A : Type) (l l' : list A) (x : A) : last (l ++ l' ++ [x]) = Some x.
Proof. by rewrite app_assoc, last_snoc. Qed.

(** X5.  With the journal open and every filter accepted, the only errors
    [initJournal] returns are those of a seek to the head or to the tail,
    which is then the last call it made: a state file that cannot be read
    or a cursor the journal refuses never makes it fail, and neither does a
    position it does not know. *)
Theorem initJournal_fails_on_head_or_tail_only
    (Cursor_ Head_ Tail_ Default_ : string) (config : SeekConfig) (answers : Answers)
    (e : error) :
  NewJournal answers = None ->
  filtersAccepted answers (Units config) ->
  (initJournal Cursor_ Head_ Tail_ Default_ config answers).2 = Some e ->
  let calls := (initJournal Cursor_ Head_ Tail_ Default_ config answers).1 in
  (last calls = Some SeekHeadCall /\ seekFailure (SeekHead answers) = Some e)
  \/ (last calls = Some SeekTailCall /\ seekFailure (SeekTail answers) = Some e).
Proof.
  intros Hopen Hunits. unfold initJournal.
  rewrite Hopen, (addUnitMatches_accepted _ _ Hunits).
  unfold seekSwitch, seekToHelper, seekFailure.
  assert (forall (l : list JournalCall) x, last (l ++ [x]) = Some x) as Hsnoc
      by (intros; apply last_snoc).
  destruct (String.eqb (SeekPosition config) Cursor_).
  - destruct (ReadFile answers (CursorStateFile config)) as [cursor [e'|]];
      [|destruct (SeekCursor answers cursor); [|done]];
      (destruct (String.eqb (CursorSeekFallback config) Default_); [done|]);
      (destruct (String.eqb (CursorSeekFallback config) Head_);
         [|destruct (String.eqb (CursorSeekFallback config) Tail_)]);
      try done.
    all: first [destruct (SeekHead answers) as [failure|]; cbn beta iota zeta delta [fst snd];
                [|done]; intros [= <-]; left; split; [apply last_after | done]
               |destruct (SeekTail answers) as [failure|]; cbn beta iota zeta delta [fst snd];
                [|done]; intros [= <-]; right; split; [apply last_after | done]].
  - destruct (String.eqb (SeekPosition config) Head_);
      [|destruct (String.eqb (SeekPosition config) Tail_)]; try done.
    + destruct (SeekHead answers); cbn beta iota zeta delta [fst snd]; [|done].
      intros [= <-]. left. split; [apply Hsnoc | done].
    + destruct (SeekTail answers); cbn beta iota zeta delta [fst snd]; [|done].
      intros [= <-]. right. split; [apply Hsnoc | done].
Qed.

(** The scenario: the fallback to the tail fails. *)
Lemma initJournal_fails_on_head_or_tail_only_witness :
  seekFailure (SeekTail InitScenario.staleCursor)
    = Some "Seeking to a good position in journal failed: seek failed".
Proof.
  destruct (initJournal_fails_on_head_or_tail_only "cursor" "head" "tail" "none"
              (InitScenario.resume "tail") InitScenario.staleCursor
              "Seeking to a good position in journal failed: seek failed")
    as [[Hlast _]|[_ Hfail]].
  - reflexivity.
  - repeat constructor.
  - reflexivity.
  - discriminate Hlast.
  - exact Hfail.
Defined.

(** ** The engine, whatever the outcome *)

Section EngineEffects.

Variable clock : nat -> Z.
Variable config : Config.

(** What one call of [flushOrBufferLogs] has done to the buffers and to the
    sink when it ends, by return or by panic: nothing; or merged the line
    into the entry of its key; or filed the event as the entry of its key,
    publishing the entry it replaces when the line is no continuation. *)
Lemma flushOrBufferLogs_effect event jb :
  let jb' := state_of (flushOrBufferLogs clock config event jb) in
  let buf := journalTypeOutstandingLogBuffer jb in
  (journalTypeOutstandingLogBuffer jb' = buf /\ published jb' = published jb)
  \/ (exists m k old om t,
        asString (event !! "message") = Some m
        /\ asString (event !! "logBufferingType") = Some k
        /\ isContinuation m = true
        /\ buf !! k = Some old
        /\ asString (logEvent old !! "message") = Some om
        /\ journalTypeOutstandingLogBuffer jb' =
             <[k := {| time := t;
                       logEvent := <["message" := VString (om +:+ newline +:+ m)]>
                                     (logEvent old);
                       logType := logType old |}]> buf
        /\ published jb' = published jb)
  \/ (exists m k t,
        asString (event !! "message") = Some m
        /\ asString (event !! "logBufferingType") = Some k
        /\ journalTypeOutstandingLogBuffer jb' =
             <[k := {| time := t; logEvent := event; logType := k |}]> buf
        /\ published jb' =
             published jb ++ match buf !! k with
                             | Some old => if isContinuation m then [] else [logEvent old]
                             | None => []
                             end).
Proof.
  unfold flushOrBufferLogs, newLogBuffer, bind, must, ret, panic,
    get_buffer, set_buffers, PublishEvent, Now, Inc, Update; cbn.
  destruct (asString (event !! "message")) as [m|] eqn:Hm; cbn; [|by left].
  destruct (asString (event !! "logBufferingType")) as [k|] eqn:Hk; cbn; [|by left].
  destruct (isContinuation m) eqn:Hcont; cbn.
  - destruct (journalTypeOutstandingLogBuffer jb !! k) as [old|] eqn:Hold; cbn.
    + destruct (asString (logEvent old !! "message")) as [om|] eqn:Hom; cbn; [|by left].
      right; left. exists m, k, old, om, (clock (nowCalls jb)).
      rewrite alter_insert_eq. by rewrite Hold.
    + right; right. exists m, k, (clock (S (nowCalls jb))).
      rewrite alter_insert_eq, Hold, app_nil_r. by repeat split.
  - right; right. exists m, k, (clock (nowCalls jb)). rewrite Hcont.
    destruct (journalTypeOutstandingLogBuffer jb !! k) as [old|] eqn:Hold; cbn.
    + destruct (MetricsEnabled config); cbn; [|done].
      destruct (logMessagesPublished jb); cbn; [|done].
      destruct (asInt64 (event !! "utcTimestamp")); cbn; [|done].
      destruct (logMessageDelay jb); done.
    + by rewrite app_nil_r.
Qed.

End EngineEffects.

Section EngineRuns.

Variable clock : nat -> Z.
Variable config : Config.

(** What one visit of the reaper has done when it ends, by return or by
    panic: nothing, or published the entry of the key and deleted it, with
    its cursor sent unless the event has none.  It never touches the
    metrics. *)
Lemma flushStaleEntry_effect k jb :
  let jb' := state_of (flushStaleEntry clock config k jb) in
  let buf := journalTypeOutstandingLogBuffer jb in
  logMessagesPublished jb' = logMessagesPublished jb
  /\ logMessageDelay jb' = logMessageDelay jb
  /\ ((journalTypeOutstandingLogBuffer jb' = buf
       /\ published jb' = published jb
       /\ cursorChan jb' = cursorChan jb)
      \/ (exists b,
            buf !! k = Some b
            /\ isStale config (clock (nowCalls jb)) b = true
            /\ journalTypeOutstandingLogBuffer jb' = delete k buf
            /\ published jb' = published jb ++ [logEvent b]
            /\ (cursorChan jb' = cursorChan jb
                \/ exists c, logEvent b !! "cursor" = Some (VString c)
                             /\ cursorChan jb' = cursorChan jb ++ [c]))).
Proof.
  unfold flushStaleEntry, bind, must, ret, panic, get_buffer, set_buffers,
    PublishEvent, send_cursorChan, Now; cbn.
  destruct (journalTypeOutstandingLogBuffer jb !! k) as [b|] eqn:Hb; cbn.
  - destruct (isStale config (clock (nowCalls jb)) b) eqn:Hstale; cbn.
    + destruct (asString (logEvent b !! "cursor")) as [c|] eqn:Hc; cbn.
      * split; [done|]. split; [done|]. right. exists b. repeat split; try done.
        right. exists c. split; [by apply asString_Some | done].
      * split; [done|]. split; [done|]. right. exists b. repeat split; try done. by left.
    + split; [done|]. split; [done|]. by left.
  - split; [done|]. split; [done|]. by left.
Qed.

Lemma state_of_bind {A B} (m : M A) (f : A -> M B) jb :
  state_of (bind m f jb) =
    match m jb with
    | Ok a jb1 => state_of (f a jb1)
    | Panic jb1 => jb1
    end.
Proof. unfold bind. by destruct (m jb). Qed.

(** A relation between the engine before and after that every call of
    [flushOrBufferLogs] and every visit of the reaper respects, and that
    composes, holds over any stretch of the loop of [logProcessor]. *)
Lemma logProcessor_steps (R : Journalbeat -> Journalbeat -> Prop) :
  (forall jb, R jb jb) ->
  (forall jb1 jb2 jb3, R jb1 jb2 -> R jb2 jb3 -> R jb1 jb3) ->
  (forall event jb, R jb (state_of (flushOrBufferLogs clock config event jb))) ->
  (forall k jb, R jb (state_of (flushStaleEntry clock config k jb))) ->
  forall signals jb, R jb (state_of (logProcessor clock config signals jb)).
Proof.
  intros Hrefl Htrans Hingest Hvisit.
  assert (forall keys jb, R jb (state_of (flushStaleLogMessages clock config keys jb)))
    as Hpass.
  { induction keys as [|k rest IH]; intros jb; cbn; [apply Hrefl|].
    rewrite state_of_bind. specialize (Hvisit k jb).
    destruct (flushStaleEntry clock config k jb) as [[] jb1|jb1]; cbn in Hvisit; [|done].
    eapply Htrans; [exact Hvisit | apply IH]. }
  induction signals as [|[order|event] rest IH]; intros jb; cbn; [apply Hrefl| |].
  - rewrite state_of_bind. specialize (Hpass order jb).
    destruct (flushStaleLogMessages clock config order jb) as [[] jb1|jb1];
      cbn in Hpass; [|done].
    eapply Htrans; [exact Hpass | apply IH].
  - rewrite state_of_bind. specialize (Hingest event jb).
    destruct (flushOrBufferLogs clock config event jb) as [[] jb1|jb1];
      cbn in Hingest; [|done].
    eapply Htrans; [exact Hingest | apply IH].
Qed.

End EngineRuns.

(** X6.  A call of [flushOrBufferLogs] leaves the entries of all other
    keys as they are, whether it returns or panics: lines of one stream are
    never merged into, and never flush, the entry of another. *)
Theorem flushOrBufferLogs_other_streams clock config event jb k :
  asString (event !! "logBufferingType") <> Some k ->
  journalTypeOutstandingLogBuffer (state_of (flushOrBufferLogs clock config event jb)) !! k =
    journalTypeOutstandingLogBuffer jb !! k.
Proof.
  intros Hother.
  destruct (flushOrBufferLogs_effect clock config event jb)
    as [[-> _]|[(m & k' & old & om & t & _ & Hk & _ & _ & _ & -> & _)
               |(m & k' & t & _ & Hk & -> & _)]];
    [done| |]; rewrite lookup_insert_ne; congruence.
Qed.

(** The scenario: a line of process 7 arrives while the line ["A"] of
    process 42 is buffered. *)
Lemma flushOrBufferLogs_other_streams_witness :
  journalTypeOutstandingLogBuffer
    (state_of (flushOrBufferLogs Scenario.clock Scenario.config
                 (<["logBufferingType" := VString "7"]> (Scenario.line " B" "c2"))
                 Scenario.holdingA)) !! "42" =
    Some {| time := Scenario.clock 0; logEvent := Scenario.line "A" "c1"; logType := "42" |}.
Proof.
  rewrite (flushOrBufferLogs_other_streams Scenario.clock Scenario.config
             (<["logBufferingType" := VString "7"]> (Scenario.line " B" "c2"))
             Scenario.holdingA "42").
  - reflexivity.
  - vm_compute. discriminate.
Defined.

(** X7.  The engine keeps every entry filed under its own key: if each
    buffered entry has the key it is stored at as its type and as the
    ["logBufferingType"] of its event, and a string message, the same holds
    after any stretch of the loop of [logProcessor], however it ends. *)
Theorem logProcessor_keeps_entries_keyed clock config signals jb :
  keyed jb ->
  keyed (state_of (logProcessor clock config signals jb)).
Proof.
  revert signals jb.
  apply (logProcessor_steps clock config (fun jb jb' => keyed jb -> keyed jb')).
  - done.
  - intros jb1 jb2 jb3 H12 H23 H1. by apply H23, H12.
  - intros event jb Hkeyed.
    destruct (flushOrBufferLogs_effect clock config event jb)
      as [[Hbuf _]|[(m & k & old & om & t & Hm & Hk & _ & Hold & Hom & Hbuf & _)
                   |(m & k & t & Hm & Hk & Hbuf & _)]];
      intros k' b; rewrite Hbuf; [apply Hkeyed| |].
    + destruct (decide (k' = k)) as [->|Hne].
      * rewrite lookup_insert_eq. intros [= <-]. cbn.
        destruct (Hkeyed k old Hold) as (Htype & Hkey & _).
        rewrite lookup_insert_eq, lookup_insert_ne by done. split; [done|]. split; [done|].
        by eexists.
      * rewrite lookup_insert_ne by done. apply Hkeyed.
    + destruct (decide (k' = k)) as [->|Hne].
      * rewrite lookup_insert_eq. intros [= <-]. cbn. split; [done|]. split; [done|].
        by eexists.
      * rewrite lookup_insert_ne by done. apply Hkeyed.
  - intros k jb Hkeyed.
    destruct (flushStaleEntry_effect clock config k jb)
      as (_ & _ & [(Hbuf & _)|(b & _ & _ & Hbuf & _)]);
      intros k' b'; rewrite Hbuf; [apply Hkeyed|].
    intros [_ H]%lookup_delete_Some. by apply Hkeyed.
Qed.

(** The scenario: from the idle engine, two lines and a pass of the
    reaper. *)
Lemma logProcessor_keeps_entries_keyed_witness :
  keyed (state_of (logProcessor Scenario.clock Scenario.config
                     [Incoming (Scenario.line "A" "c1"); Tick ["42"];
                      Incoming (Scenario.line " B" "c2")] Scenario.idle)).
Proof.
  apply logProcessor_keeps_entries_keyed.
  intros k b. unfold Scenario.idle; cbn. by rewrite lookup_empty.
Defined.

(** X8.  Over any stretch of the loop of [logProcessor], however it ends,
    the entries published or still buffered grow by at most one for each
    event received, and the reaper alone changes their number not at all:
    it moves entries from the buffer to the sink one for one, and the
    engine never publishes an entry it was not given. *)
Theorem logProcessor_handles_what_it_received clock config :
  (forall signals jb,
     (handled (state_of (logProcessor clock config signals jb))
      <= handled jb + length (incoming signals))%nat)
  /\ (forall keys jb,
        handled (state_of (flushStaleLogMessages clock config keys jb)) = handled jb).
Proof.
  assert (forall k jb, handled (state_of (flushStaleEntry clock config k jb)) = handled jb)
    as Hvisit.
  { intros k jb. unfold handled.
    destruct (flushStaleEntry_effect clock config k jb)
      as (_ & _ & [(-> & -> & _)|(b & Hb & _ & -> & -> & _)]); [done|].
    rewrite length_app, map_size_delete, Hb. cbn.
    assert (size (journalTypeOutstandingLogBuffer jb) <> 0%nat)
      by (by eapply map_size_ne_0_lookup_2).
    lia. }
  assert (forall keys jb,
            handled (state_of (flushStaleLogMessages clock config keys jb)) = handled jb)
    as Hpass.
  { induction keys as [|k rest IH]; intros jb; cbn; [done|].
    rewrite state_of_bind. specialize (Hvisit k jb).
    destruct (flushStaleEntry clock config k jb) as [[] jb1|jb1]; cbn in Hvisit; [|done].
    by rewrite IH. }
  assert (forall event jb,
            (handled (state_of (flushOrBufferLogs clock config event jb))
             <= handled jb + 1)%nat) as Hingest.
  { intros event jb. unfold handled.
    destruct (flushOrBufferLogs_effect clock config event jb)
      as [[-> ->]|[(m & k & old & om & t & _ & _ & _ & Hold & _ & -> & ->)
                  |(m & k & t & _ & _ & -> & ->)]]; [lia| |].
    - rewrite map_size_insert, Hold. cbn. lia.
    - rewrite length_app, map_size_insert.
      destruct (journalTypeOutstandingLogBuffer jb !! k); [destruct (isContinuation m)|];
        cbn; lia. }
  split; [|done].
  induction signals as [|[order|event] rest IH]; intros jb; [cbn; lia| |].
  - change (incoming (Tick order :: rest)) with (incoming rest). cbn [logProcessor].
    rewrite state_of_bind. specialize (Hpass order jb).
    destruct (flushStaleLogMessages clock config order jb) as [[] jb1|jb1];
      cbn in Hpass; [|lia].
    specialize (IH jb1). lia.
  - change (incoming (Incoming event :: rest)) with (event :: incoming rest).
    cbn [logProcessor length].
    rewrite state_of_bind. specialize (Hingest event jb).
    destruct (flushOrBufferLogs clock config event jb) as [[] jb1|jb1];
      cbn in Hingest; [|lia].
    specialize (IH jb1). lia.
Qed.

(** X9.  Over any stretch of the loop of [logProcessor], however it ends,
    the sink and the cursor channel only grow, and the cursors sent are,
    in order, the ["cursor"] fields of some of the events published in that
    stretch, in the order of their publication: the cursor writer never
    receives the marker of an event that was not published first, and
    never receives markers out of the order of publication. *)
Theorem logProcessor_cursors_follow_publications clock config signals jb :
  let jb' := state_of (logProcessor clock config signals jb) in
  exists events cursors,
    published jb' = published jb ++ events
    /\ cursorChan jb' = cursorChan jb ++ cursors
    /\ ((fun c => Some (VString c)) <$> cursors)
         `sublist_of` ((fun event : MapStr => event !! "cursor") <$> events).
Proof.
  revert signals jb.
  apply (logProcessor_steps clock config
           (fun jb jb' =>
              exists events cursors,
                published jb' = published jb ++ events
                /\ cursorChan jb' = cursorChan jb ++ cursors
                /\ ((fun c => Some (VString c)) <$> cursors)
                     `sublist_of` ((fun event : MapStr => event !! "cursor") <$> events))).
  - intros jb. exists [], []. by rewrite !app_nil_r.
  - intros jb1 jb2 jb3 (ev1 & cu1 & Hp1 & Hc1 & Hs1) (ev2 & cu2 & Hp2 & Hc2 & Hs2).
    exists (ev1 ++ ev2), (cu1 ++ cu2).
    rewrite Hp2, Hp1, Hc2, Hc1, <- !app_assoc, !fmap_app.
    split; [done|]. split; [done|]. by apply sublist_app.
  - intros event jb.
    pose proof (flushOrBufferLogs_cursorChan clock config event jb) as Hcursors.
    destruct (flushOrBufferLogs_effect clock config event jb)
      as [[_ Hpub]|[(m & k & old & om & t & _ & _ & _ & _ & _ & _ & Hpub)
                   |(m & k & t & _ & _ & _ & Hpub)]].
    + exists [], []. rewrite !app_nil_r. split; [done|]. split; [done|]. apply sublist_nil_l.
    + exists [], []. rewrite !app_nil_r. split; [done|]. split; [done|]. apply sublist_nil_l.
    + eexists _, []. split; [exact Hpub|]. split; [by rewrite app_nil_r|].
      apply sublist_nil_l.
  - intros k jb.
    destruct (flushStaleEntry_effect clock config k jb)
      as (_ & _ & [(_ & -> & ->)|(b & _ & _ & _ & -> & [->|(c & Hc & ->)])]).
    + exists [], []. by rewrite !app_nil_r.
    + exists [logEvent b], []. rewrite app_nil_r. split; [done|]. split; [done|].
      apply sublist_nil_l.
    + exists [logEvent b], [c]. split; [done|]. split; [done|]. cbn. by rewrite Hc.
Qed.

(** X10.  A continuation line for a key with nothing buffered is kept as
    the entry of that key, unchanged, and nothing is published or sent; a
    further continuation line of the key is then appended to it after a
    newline. *)
Theorem continuation_without_predecessor clock config event next jb m m' k :
  asString (event !! "message") = Some m ->
  asString (event !! "logBufferingType") = Some k ->
  isContinuation m = true ->
  journalTypeOutstandingLogBuffer jb !! k = None ->
  asString (next !! "message") = Some m' ->
  asString (next !! "logBufferingType") = Some k ->
  isContinuation m' = true ->
  exists jb1 jb2,
    flushOrBufferLogs clock config event jb = Ok tt jb1
    /\ journalTypeOutstandingLogBuffer jb1 !! k =
         Some {| time := clock (S (nowCalls jb)); logEvent := event; logType := k |}
    /\ published jb1 = published jb
    /\ cursorChan jb1 = cursorChan jb
    /\ flushOrBufferLogs clock config next jb1 = Ok tt jb2
    /\ logEvent <$> journalTypeOutstandingLogBuffer jb2 !! k =
         Some (<["message" := VString (m +:+ newline +:+ m')]> event)
    /\ published jb2 = published jb.
Proof.
  intros Hm Hk Hcont Hnone Hm' Hk' Hcont'.
  pose proof (flushOrBufferLogs_orphan clock config event jb m k Hm Hk Hcont Hnone) as Hrun1.
  match type of Hrun1 with _ = Ok tt ?s => set (jb1 := s) in * end.
  assert (journalTypeOutstandingLogBuffer jb1 !! k =
            Some {| time := clock (S (nowCalls jb)); logEvent := event; logType := k |})
    as Hentry by apply lookup_insert_eq.
  pose proof (flushOrBufferLogs_merge clock config next jb1 m' k _ m Hm' Hk' Hcont' Hentry Hm)
    as Hrun2.
  eexists jb1, _. split; [done|]. split; [done|]. split; [done|]. split; [done|].
  split; [exact Hrun2|]. cbn. by rewrite lookup_insert_eq.
Qed.

(** The scenario: two indented lines reach the idle engine. *)
Lemma continuation_without_predecessor_witness :
  exists jb1 jb2,
    flushOrBufferLogs Scenario.clock Scenario.config (Scenario.line " A" "c1") Scenario.idle
      = Ok tt jb1
    /\ flushOrBufferLogs Scenario.clock Scenario.config (Scenario.line " B" "c2") jb1
       = Ok tt jb2
    /\ logEvent <$> journalTypeOutstandingLogBuffer jb2 !! "42" =
         Some (Scenario.line (" A" +:+ newline +:+ " B") "c1").
Proof.
  destruct (continuation_without_predecessor Scenario.clock Scenario.config
              (Scenario.line " A" "c1") (Scenario.line " B" "c2") Scenario.idle
              " A" " B" "42" eq_refl eq_refl eq_refl eq_refl eq_refl eq_refl eq_refl)
    as (jb1 & jb2 & H1 & _ & _ & _ & H2 & H3 & _).
  exists jb1, jb2. split; [exact H1|]. split; [exact H2|]. rewrite H3. reflexivity.
Defined.

(** X11.  With metrics switched on, replacing a buffered entry panics when
    the counter or the gauge was never created, or when the incoming event
    has no [int64] under ["utcTimestamp"]: the metric is a nil interface
    and the assertion has no error branch.  The panic comes after the new
    event was filed and the old entry published. *)
Theorem flushOrBufferLogs_panics_in_metrics clock config event jb m k old :
  MetricsEnabled config = true ->
  asString (event !! "message") = Some m ->
  asString (event !! "logBufferingType") = Some k ->
  isContinuation m = false ->
  journalTypeOutstandingLogBuffer jb !! k = Some old ->
  logMessagesPublished jb = None
    \/ asInt64 (event !! "utcTimestamp") = None
    \/ logMessageDelay jb = None ->
  exists jb',
    flushOrBufferLogs clock config event jb = Panic jb'
    /\ published jb' = published jb ++ [logEvent old]
    /\ journalTypeOutstandingLogBuffer jb' !! k =
         Some {| time := clock (nowCalls jb); logEvent := event; logType := k |}
    /\ cursorChan jb' = cursorChan jb.
Proof.
  intros Hon Hm Hk Hcont Hold Hmissing.
  unfold flushOrBufferLogs, newLogBuffer, bind, must, ret, panic,
    get_buffer, set_buffers, PublishEvent, Now, Inc, Update; cbn.
  rewrite Hm, Hk; cbn. rewrite Hcont, Hold, Hon; cbn.
  destruct (logMessagesPublished jb) as [count|]; cbn.
  - destruct (asInt64 (event !! "utcTimestamp")) as [utc|]; cbn.
    + destruct Hmissing as [?|[?|Hgauge]]; [done|done|]. rewrite Hgauge.
      eexists. split; [done|]. cbn. by rewrite lookup_insert_eq.
    + eexists. split; [done|]. cbn. by rewrite lookup_insert_eq.
  - eexists. split; [done|]. cbn. by rewrite lookup_insert_eq.
Qed.

(** The scenario: metrics are on but were never created; ["C"] arrives
    while ["A"] is buffered. *)
Lemma flushOrBufferLogs_panics_in_metrics_witness :
  exists jb',
    flushOrBufferLogs MetricsScenario.clock MetricsScenario.config
      (MetricsScenario.stamped "C" "c2") MetricsScenario.unmeasured = Panic jb'
    /\ published jb' = [MetricsScenario.stamped "A" "c1"].
Proof.
  destruct (flushOrBufferLogs_panics_in_metrics MetricsScenario.clock MetricsScenario.config
              (MetricsScenario.stamped "C" "c2") MetricsScenario.unmeasured "C" "42"
              {| time := 0; logEvent := MetricsScenario.stamped "A" "c1"; logType := "42" |}
              eq_refl eq_refl eq_refl eq_refl eq_refl (or_introl eq_refl))
    as (jb' & Hrun & Hpub & _).
  exists jb'. split; [exact Hrun | exact Hpub].
Defined.

(** X12.  The reaper publishes without counting: a pass over any keys,
    however it ends, leaves the published-messages counter and the delay
    gauge as they were. *)
Theorem flushStaleLogMessages_leaves_metrics clock config keys jb :
  logMessagesPublished (state_of (flushStaleLogMessages clock config keys jb))
    = logMessagesPublished jb
  /\ logMessageDelay (state_of (flushStaleLogMessages clock config keys jb))
     = logMessageDelay jb.
Proof.
  revert jb. induction keys as [|k rest IH]; intros jb; cbn; [done|].
  rewrite state_of_bind.
  destruct (flushStaleEntry_effect clock config k jb) as (Hcount & Hdelay & _).
  destruct (flushStaleEntry clock config k jb) as [[] jb1|jb1]; cbn in *; [|done].
  destruct (IH jb1) as [-> ->]. done.
Qed.

(** X13.  With metrics on and in place, replacing a buffered entry adds one
    to the counter and sets the gauge to the whole seconds between the
    clock, read after the new entry was filed, and the timestamp of the
    incoming event (not of the entry being published); an event that
    replaces nothing leaves both metrics alone. *)
Theorem flushOrBufferLogs_updates_metrics clock config event jb m k count delay utc :
  MetricsEnabled config = true ->
  asString (event !! "message") = Some m ->
  asString (event !! "logBufferingType") = Some k ->
  isContinuation m = false ->
  logMessagesPublished jb = Some count ->
  logMessageDelay jb = Some delay ->
  asInt64 (event !! "utcTimestamp") = Some utc ->
  exists jb',
    flushOrBufferLogs clock config event jb = Ok tt jb'
    /\ match journalTypeOutstandingLogBuffer jb !! k with
       | Some old =>
           logMessagesPublished jb' = Some (int64 (count + 1))
           /\ logMessageDelay jb' =
                Some (int64 (clock (S (nowCalls jb)) / 1000000000 - Z.quot utc 1000000))
       | None =>
           logMessagesPublished jb' = Some count /\ logMessageDelay jb' = Some delay
       end.
Proof.
  intros Hon Hm Hk Hcont Hcount Hdelay Hutc.
  unfold flushOrBufferLogs, newLogBuffer, bind, must, ret, panic,
    get_buffer, set_buffers, PublishEvent, Now, Inc, Update; cbn.
  rewrite Hm, Hk; cbn. rewrite Hcont; cbn.
  destruct (journalTypeOutstandingLogBuffer jb !! k) as [old|]; cbn.
  - rewrite Hon; cbn. rewrite Hcount; cbn. rewrite Hutc; cbn. rewrite Hdelay; cbn.
    eexists. split; [done|]. done.
  - eexists. split; [done|]. done.
Qed.

(** The scenario: ["C"], stamped 5 seconds before the clock, replaces
    ["A"]. *)
Lemma flushOrBufferLogs_updates_metrics_witness :
  exists jb',
    flushOrBufferLogs MetricsScenario.clock MetricsScenario.config
      (MetricsScenario.stamped "C" "c2") MetricsScenario.measuring = Ok tt jb'
    /\ logMessagesPublished jb' = Some 1
    /\ logMessageDelay jb' = Some 5.
Proof.
  destruct (flushOrBufferLogs_updates_metrics MetricsScenario.clock MetricsScenario.config
              (MetricsScenario.stamped "C" "c2") MetricsScenario.measuring "C" "42" 0 0
              1136214245123456 eq_refl eq_refl eq_refl eq_refl eq_refl eq_refl eq_refl)
    as (jb' & Hrun & Hmetrics).
  exists jb'. split; [exact Hrun|]. exact Hmetrics.
Defined.

(** ** The cursor writer, beyond the final save *)

Lemma periodicWrites_sublist received : periodicWrites received `sublist_of` received.*1.
Proof.
  induction received as [|[c tick] rest IH]; cbn; [done|].
  destruct (tick && negb (String.eqb c "")); cbn; by constructor.
Qed.

Lemma periodicWrites_nonempty received : Forall (fun c => c <> "") (periodicWrites received).
Proof.
  induction received as [|[c tick] rest IH]; cbn; [done|].
  destruct tick; cbn; [|done].
  destruct (String.eqb_spec c ""); cbn; [done | by constructor].
Qed.

(** X14.  Whatever the ticker does, what [writeCursorLoop] writes to the
    state file is never the empty string, and the contents written are, in
    order, cursors it received, the last one possibly once more for the
    final save: the file never goes back to a cursor received earlier than
    the one it holds. *)
Theorem writeCursorLoop_writes_what_it_received received :
  Forall (fun c => c <> "") (writeCursorLoop received)
  /\ writeCursorLoop received `sublist_of` (received.*1 ++ option_list (last received.*1)).
Proof.
  unfold writeCursorLoop. rewrite writeCursorRange_app. cbn.
  rewrite fmap_last. unfold saveCursorState.
  destruct (last received) as [[c tick]|]; cbn.
  - destruct (String.eqb_spec c ""); cbn.
    + split; [apply periodicWrites_nonempty|].
      apply sublist_inserts_r, periodicWrites_sublist.
    + split.
      * apply Forall_app. split; [apply periodicWrites_nonempty | by constructor].
      * apply sublist_app; [apply periodicWrites_sublist | done].
  - split; [apply periodicWrites_nonempty|].
    rewrite app_nil_r. apply periodicWrites_sublist.
Qed.

(** ** Normalisation, beyond the key and the timestamp *)

Lemma Run_event_other_keys MapStrFromJournalEntry Local config rawEvent key :
  key ∉ keysOfRun ->
  Run_event MapStrFromJournalEntry Local config rawEvent !! key =
    MapStrFromJournalEntry rawEvent (CleanFieldNames config) (ConvertToNumbers config)
      (MoveMetadataLocation config) (selectedFields rawEvent) !! key.
Proof.
  unfold Run_event, selectedFields, keysOfRun, commonFields. intros Hkey.
  assert (key <> "type" /\ key <> "logBufferingType" /\ key <> "input_type"
          /\ key <> "cursor" /\ key <> "@timestamp" /\ key <> "utcTimestamp")
    as (? & ? & ? & ? & ? & ?).
  { repeat split; intros ->; apply Hkey; set_solver. }
  destruct (Fields rawEvent !! timestampField) as [tmStr|];
    [destruct (ParseInt tmStr) as [tm [err|]]|];
    destruct (Fields rawEvent !! containerIdField); cbn;
    by rewrite !lookup_insert_ne by done.
Qed.

(** X15.  [Run] assigns six keys of the event and leaves every other field
    as the helper built it, from the record and the four fields [Run]
    selects for its shape; what the helper put under one of the six keys is
    overwritten.  The type is ["container"] for a record with a container
    identity and the syslog identifier otherwise, the input type is the
    configured default, the cursor is the record's. *)
Theorem Run_event_assigns_six_keys MapStrFromJournalEntry Local config rawEvent :
  let event := Run_event MapStrFromJournalEntry Local config rawEvent in
  let built :=
    MapStrFromJournalEntry rawEvent (CleanFieldNames config) (ConvertToNumbers config)
      (MoveMetadataLocation config) (selectedFields rawEvent) in
  (forall key, key ∉ keysOfRun -> event !! key = built !! key)
  /\ event !! "type" =
       Some (VString (match Fields rawEvent !! containerIdField with
                      | Some _ => "container"
                      | None => index (Fields rawEvent) tagField
                      end))
  /\ event !! "input_type" = Some (VString (DefaultType config))
  /\ event !! "cursor" = Some (VString (Cursor rawEvent)).
Proof.
  cbn zeta. unfold Run_event, selectedFields, keysOfRun, commonFields.
  split; [|split; [|split]].
  - intros key Hkey.
    exact (Run_event_other_keys MapStrFromJournalEntry Local config rawEvent key Hkey).
  - destruct (Fields rawEvent !! timestampField) as [tmStr|];
      [destruct (ParseInt tmStr) as [tm [err|]]|];
      destruct (Fields rawEvent !! containerIdField); cbn;
      rewrite !(lookup_insert_ne _ _ "type") by done; by rewrite lookup_insert_eq.
  - destruct (Fields rawEvent !! timestampField) as [tmStr|];
      [destruct (ParseInt tmStr) as [tm [err|]]|];
      rewrite !(lookup_insert_ne _ _ "input_type") by done; by rewrite lookup_insert_eq.
  - destruct (Fields rawEvent !! timestampField) as [tmStr|];
      [destruct (ParseInt tmStr) as [tm [err|]]|];
      rewrite !(lookup_insert_ne _ _ "cursor") by done; by rewrite lookup_insert_eq.
Qed.

(** The scenario: the message the helper copied survives, under a key that
    is none of the six. *)
Lemma Run_event_assigns_six_keys_witness :
  Run_event messageOnly GoTime.UTC Scenario.config Scenario.kernelRecord !! "message"
    = Some (VString "usb 1-1: new device").
Proof.
  destruct (Run_event_assigns_six_keys messageOnly GoTime.UTC Scenario.config
              Scenario.kernelRecord) as (Hkept & _).
  rewrite Hkept; [reflexivity|]. unfold keysOfRun.
  intros H. repeat (apply elem_of_cons in H as [H|H]; [discriminate H|]).
  by apply elem_of_nil in H.
Defined.

(** ** From [Run] to the engine *)

Lemma flushStaleLogMessages_ready clock config keys :
  forall jb,
    engineReady config jb ->
    exists jb',
      flushStaleLogMessages clock config keys jb = Ok tt jb' /\ engineReady config jb'.
Proof.
  induction keys as [|k rest IH]; intros jb Hjb; cbn; [by exists jb|].
  unfold bind.
  destruct (journalTypeOutstandingLogBuffer jb !! k) as [b|] eqn:Hb.
  - rewrite (flushStaleEntry_run clock config k jb b Hb) in *.
    destruct Hjb as [Hbufs Hmetrics]. destruct (Hbufs k b Hb) as (_ & _ & [c Hc] & _).
    rewrite Hc in *. destruct (isStale config (clock (nowCalls jb)) b); apply IH.
    + split; [|done]. intros k' b'. cbn. intros [_ H]%lookup_delete_Some. by eapply Hbufs.
    + by split.
  - assert (flushStaleEntry clock config k jb = Ok tt jb) as ->.
    { unfold flushStaleEntry, bind, get_buffer, ret. by rewrite Hb. }
    by apply IH.
Qed.

(** X16.  An engine whose buffered events carry their strings, and whose
    metrics exist when they are on, takes any stretch of ticks and of
    events that carry theirs without panicking, in whatever order the
    reaper visits whatever keys, and is left in the same condition. *)
Theorem logProcessor_takes_ready_events clock config signals :
  forall jb,
    engineReady config jb ->
    Forall (eventReady config) (incoming signals) ->
    exists jb',
      logProcessor clock config signals jb = Ok tt jb' /\ engineReady config jb'.
Proof.
  induction signals as [|[order|event] rest IH]; intros jb Hjb Hevents.
  - by exists jb.
  - destruct (flushStaleLogMessages_ready clock config order jb Hjb) as (jb1 & Hrun & Hjb1).
    cbn. unfold bind. rewrite Hrun. by apply IH.
  - change (incoming (Incoming event :: rest)) with (event :: incoming rest) in Hevents.
    apply Forall_cons in Hevents as [Hevent Hevents].
    pose proof Hevent as (_ & [k Hk] & _).
    destruct (flushOrBufferLogs_ready clock config event jb k Hjb Hevent Hk)
      as (jb1 & Hrun & Hjb1 & _).
    cbn. unfold bind. rewrite Hrun. by apply IH.
Qed.

(** The scenario: two lines and a pass of the reaper, from the idle
    engine. *)
Lemma logProcessor_takes_ready_events_witness :
  exists jb',
    logProcessor Scenario.clock Scenario.config
      [Incoming (Scenario.line "A" "c1"); Incoming (Scenario.line " B" "c2"); Tick ["42"]]
      Scenario.idle = Ok tt jb'.
Proof.
  assert (engineReady Scenario.config Scenario.idle) as Hidle.
  { split; [|discriminate]. intros k b. unfold Scenario.idle; cbn. by rewrite lookup_empty. }
  assert (forall m cur, eventReady Scenario.config (Scenario.line m cur)) as Hline.
  { intros m cur. split; [by exists m|]. split; [by exists "42"|].
    split; [by exists cur | discriminate]. }
  destruct (logProcessor_takes_ready_events Scenario.clock Scenario.config
              [Incoming (Scenario.line "A" "c1"); Incoming (Scenario.line " B" "c2");
               Tick ["42"]] Scenario.idle Hidle) as (jb' & Hrun & _).
  - change (Forall (eventReady Scenario.config)
              [Scenario.line "A" "c1"; Scenario.line " B" "c2"]).
    apply Forall_cons. split; [apply Hline|].
    apply Forall_cons. split; [apply Hline | apply Forall_nil_2].
  - by exists jb'.
Defined.

(** X17.  Every event [Run] builds is one the engine can take, provided the
    helper puts a string under ["message"]: the key, the cursor and the
    timestamp are there with the types the engine asserts, whatever the
    record holds. *)
Theorem Run_event_ready MapStrFromJournalEntry Local config rawEvent :
  is_Some (asString
             (MapStrFromJournalEntry rawEvent (CleanFieldNames config)
                (ConvertToNumbers config) (MoveMetadataLocation config)
                (selectedFields rawEvent) !! "message")) ->
  eventReady config (Run_event MapStrFromJournalEntry Local config rawEvent).
Proof.
  intros Hmessage.
  destruct (Run_event_timestamps MapStrFromJournalEntry Local config rawEvent) as [Hutc _].
  unfold eventReady.
  rewrite Run_event_logBufferingType, Run_event_cursor, Hutc, Run_event_other_keys.
  - split; [done|]. split; [by eexists|]. split; by eexists.
  - unfold keysOfRun. intros H.
    repeat (apply elem_of_cons in H as [H|H]; [discriminate H|]). by apply elem_of_nil in H.
Qed.

(** The scenario: a record of the kernel, with the helper that copies the
    message. *)
Lemma Run_event_ready_witness :
  eventReady Scenario.config
    (Run_event messageOnly GoTime.UTC Scenario.config Scenario.kernelRecord).
Proof.
  apply (Run_event_ready messageOnly GoTime.UTC Scenario.config Scenario.kernelRecord).
  by eexists.
Defined.

(** The value [ParseInt] returns without an error is an [int64]. *)
Lemma parseUintLoop_bounds s :
  forall n, 0 <= n <= maxUint64 ->
    0 <= (parseUintLoop s n).1 <= maxUint64.
Proof.
  induction s as [|d rest IH]; intros n Hn; cbn -[maxUint64 Z.div]; [done|].
  destruct (isDigit d) eqn:Hd; cbn -[maxUint64 Z.div]; [|unfold maxUint64; lia].
  destruct (Z.leb_spec (maxUint64 / 10 + 1) n); cbn -[maxUint64 Z.div];
    [unfold maxUint64; lia|].
  destruct (Z.ltb_spec maxUint64 (n * 10 + digitVal d)); cbn -[maxUint64 Z.div];
    [unfold maxUint64; lia|].
  apply IH. unfold isDigit, digitVal in *. lia.
Qed.

Lemma ParseInt_int64 s v :
  ParseInt s = (v, None) -> minInt64 <= v <= maxInt64.
Proof.
  unfold ParseInt. destruct s as [|c0 rest]; [done|].
  cbv zeta.
  set (s' := if Ascii.eqb c0 "+" || Ascii.eqb c0 "-" then rest else String c0 rest).
  assert (0 <= (ParseUint s').1 <= maxUint64) as Hun.
  { unfold ParseUint. destruct (String.eqb s' ""); [unfold maxUint64; cbn; lia|].
    apply parseUintLoop_bounds. unfold maxUint64. lia. }
  destruct (ParseUint s') as [un [[]|]]; cbn [fst] in Hun; [done| |];
    unfold minInt64, maxInt64;
    destruct (Ascii.eqb c0 "-"); cbn [negb andb];
    repeat match goal with
           | |- context [Z.leb ?a ?b] => destruct (Z.leb_spec a b)
           | |- context [Z.ltb ?a ?b] => destruct (Z.ltb_spec a b)
           end; intros [= <-]; lia.
Qed.

Lemma int64_range z : minInt64 <= int64 z <= maxInt64.
Proof.
  unfold int64, minInt64, maxInt64.
  pose proof (Z.mod_pos_bound (z + 2 ^ 63) (2 ^ 64)). lia.
Qed.

(** X18.  Whatever the record holds, the event of [Run] carries under
    ["utcTimestamp"] an [int64] within its range, and it is the record's
    own timestamp unchanged when the field is missing or malformed and the
    timestamp is below 2^63. *)
Theorem Run_event_utcTimestamp_is_int64 MapStrFromJournalEntry Local config rawEvent :
  exists micros,
    Run_event MapStrFromJournalEntry Local config rawEvent !! "utcTimestamp"
      = Some (VInt64 micros)
    /\ minInt64 <= micros <= maxInt64
    /\ (0 <= RealtimeTimestamp rawEvent < 2 ^ 63 ->
        (forall tmStr, Fields rawEvent !! timestampField = Some tmStr ->
                       is_Some (ParseInt tmStr).2) ->
        micros = RealtimeTimestamp rawEvent).
Proof.
  destruct (Run_event_timestamps MapStrFromJournalEntry Local config rawEvent) as [Hutc _].
  exists (derivedMicros rawEvent). split; [done|]. unfold derivedMicros.
  assert (0 <= RealtimeTimestamp rawEvent < 2 ^ 63 ->
          int64 (RealtimeTimestamp rawEvent) = RealtimeTimestamp rawEvent) as Hsame.
  { intros Hrange. unfold int64.
    rewrite Z.mod_small by lia. lia. }
  destruct (Fields rawEvent !! timestampField) as [tmStr|].
  - destruct (ParseInt tmStr) as [tm [err|]] eqn:Hparse.
    + split; [apply int64_range|]. intros Hrange _. by apply Hsame.
    + split; [by eapply ParseInt_int64|]. intros _ Hbad.
      destruct (Hbad tmStr eq_refl) as [err Herr]. rewrite Hparse in Herr. discriminate Herr.
  - split; [apply int64_range|]. intros Hrange _. by apply Hsame.
Qed.

(** The scenario: the malformed record keeps its own timestamp. *)
Lemma Run_event_utcTimestamp_is_int64_witness :
  exists micros,
    Run_event messageOnly GoTime.UTC Scenario.config Scenario.malformedRecord
      !! "utcTimestamp" = Some (VInt64 micros)
    /\ micros = 1136214245123456.
Proof.
  destruct (Run_event_utcTimestamp_is_int64 messageOnly GoTime.UTC Scenario.config
              Scenario.malformedRecord) as (micros & Hutc & _ & Hsame).
  exists micros. split; [exact Hutc|]. apply Hsame.
  - vm_compute. split; [discriminate | reflexivity].
  - intros tmStr [= <-]. by eexists.
Defined.

(** ** The timestamp string, beyond the fraction *)

(** X19.  [convertMicrosecondsEpochToISO8601] truncates to the second: in
    every zone, the string of a count of microseconds is the string of the
    whole second it falls in, before the epoch as after it. *)
Theorem convert_truncates_to_the_second (Local : GoTime.Location) (us : Z) :
  convertMicrosecondsEpochToISO8601 Local us =
    convertMicrosecondsEpochToISO8601 Local (1000000 * (us / 1000000)).
Proof.
  apply convert_ignores_microseconds.
  by rewrite Z.mul_comm, Z.div_mul.
Qed.

Lemma appendStd_civil (t t' : GoTime.Time) (std : GoTime.Std) :
  (GoTime.locabs t).2 = (GoTime.locabs t').2 ->
  civil std = true ->
  GoTime.appendStd t std = GoTime.appendStd t' std.
Proof.
  intros Habs Hcivil. unfold GoTime.appendStd.
  destruct (GoTime.locabs t) as [[name offset] abs].
  destruct (GoTime.locabs t') as [[name' offset'] abs'].
  cbn in Habs. subst abs'. by destruct std.
Qed.

(** X20.  The string of [convertMicrosecondsEpochToISO8601] shows the wall
    clock of the local zone, and the [Z] at its end is a literal of the
    layout: in a zone that is [offset] seconds east of UTC, the string for a
    time is the one UTC would get for that time plus [offset] seconds. *)
Theorem convert_prints_local_time_with_Z (Local : GoTime.Location) (name : string)
    (offset us : Z) :
  (forall sec, Local sec = (name, offset)) ->
  convertMicrosecondsEpochToISO8601 Local us =
    convertMicrosecondsEpochToISO8601 GoTime.UTC (us + offset * 1000000).
Proof.
  intros Hzone. unfold convertMicrosecondsEpochToISO8601.
  pose proof (Unix_of_micros Local us) as Ha.
  pose proof (Unix_of_micros GoTime.UTC (us + offset * 1000000)) as Hb.
  cbv zeta in Ha, Hb.
  set (ta := GoTime.Unix Local (Z.quot us microseconds) _) in *.
  set (tb := GoTime.Unix GoTime.UTC (Z.quot (us + offset * 1000000) microseconds) _) in *.
  destruct Ha as (Ha & _ & La). destruct Hb as (Hb & _ & Lb).
  assert ((GoTime.locabs ta).2 = (GoTime.locabs tb).2) as Habs.
  { unfold GoTime.locabs. rewrite La, Lb, Hzone, Ha, Hb. cbn [snd GoTime.UTC].
    rewrite Z.div_add by done. f_equal. lia. }
  rewrite !layout_elements.
  rewrite (appendStd_civil ta tb GoTime.stdLongYear Habs eq_refl).
  rewrite (appendStd_civil ta tb GoTime.stdZeroMonth Habs eq_refl).
  rewrite (appendStd_civil ta tb GoTime.stdZeroDay Habs eq_refl).
  rewrite (appendStd_civil ta tb GoTime.stdHour Habs eq_refl).
  rewrite (appendStd_civil ta tb GoTime.stdZeroMinute Habs eq_refl).
  rewrite (appendStd_civil ta tb GoTime.stdZeroSecond Habs eq_refl).
  rewrite (appendStd_civil ta tb GoTime.stdHour12 Habs eq_refl).
  done.
Qed.

(** The scenario: one hour east of UTC, the epoch reads one o'clock, with
    the [Z]. *)
Lemma convert_prints_local_time_with_Z_witness :
  convertMicrosecondsEpochToISO8601 (fun _ => ("CET", 3600)) 0
    = "1970-01-01T01:00:00.760718998Z".
Proof.
  rewrite (convert_prints_local_time_with_Z (fun _ => ("CET", 3600)) "CET" 3600 0).
  - vm_compute. reflexivity.
  - reflexivity.
Defined.
